(** * Financial-Planner-AI: the chat page of [qachat.py]

    A shallow embedding of the session logic of the Streamlit page: the
    three entries the script keeps in [st.session_state], the callback
    [reset_history], the helper [get_gemini_response], the f-string that
    builds [system_prompt], and the body of the chat-input handler.

    The generative-AI client library and the Streamlit runtime are
    external to the repository.  The client library is represented by a
    record [Remote] that says, for one run of the script, which calls
    raise and what the objects answer; Streamlit's drawing calls are
    recorded in a list of rendered elements. *)

From Stdlib Require Import String Ascii List Bool Arith Lia.
Import ListNotations.
Local Open Scope list_scope.
Local Open Scope string_scope.

(** ** Python values the page handles *)

(** An instance of [Exception].  Two handlers occur in the script:
    [except ValueError] (line 204) and [except Exception] (lines 53 and
    217); the flag tells them apart, [message] is what [str(e)] gives.
    What is raised outside the class [Exception] ([KeyboardInterrupt],
    [SystemExit]) is not represented: no handler of the script catches it,
    and it ends the run wherever it occurs. *)
Record PyException : Type := mkException {
  is_ValueError : bool;
  message : string
}.

(** The result of evaluating a Python expression that may raise. *)
Inductive PyResult (A : Type) : Type :=
| Ok (a : A)
| Raise (e : PyException).
Arguments Ok {A} a.
Arguments Raise {A} e.

(** One turn of the service's native history ([protos.Content]); the page
    never looks inside. *)
Record Content : Type := mkContent {
  role : string;
  parts : string
}.

Definition History : Type := list Content.

(** [genai.GenerativeModel(name, system_instruction=...)]. *)
Record GenerativeModel : Type := mkModel {
  model_name : string;
  system_instruction : string
}.

(** [model.start_chat(history=...)]: the chat object, known by the model
    that opened it and the history it was opened with. *)
Record ChatSession : Type := mkChat {
  chat_model : GenerativeModel;
  chat_seed : History
}.

(** One element of the streamed response; [chunk.text] is a property that
    either gives a string or raises, and gives the same each time it is
    read (line 200 reads it twice). *)
Record Chunk : Type := mkChunk {
  text : PyResult string
}.

(** The iterable returned by [chat.send_message(question, stream=True)]:
    the chunks it yields in order and, when the iteration itself breaks
    after them, the exception raised by the iterator. *)
Record Response : Type := mkResponse {
  chunks : list Chunk;
  stream_error : option PyException
}.

(** The client library during one run of the script. *)
Record Remote : Type := mkRemote {
  (** [Some e] when the constructor [genai.GenerativeModel] raises [e] *)
  model_error : string -> string -> option PyException;
  (** [Some e] when [model.start_chat] raises [e] *)
  start_chat_error : GenerativeModel -> History -> option PyException;
  (** [chat.send_message(question, stream=True)] *)
  send_message : ChatSession -> string -> PyResult Response;
  (** the property [chat.history] as line 216 reads it *)
  history : ChatSession -> PyResult History
}.

Definition new_GenerativeModel (r : Remote) (name instruction : string)
  : PyResult GenerativeModel :=
  match model_error r name instruction with
  | Some e => Raise e
  | None => Ok (mkModel name instruction)
  end.

Definition start_chat (r : Remote) (model : GenerativeModel) (h : History)
  : PyResult ChatSession :=
  match start_chat_error r model h with
  | Some e => Raise e
  | None => Ok (mkChat model h)
  end.

(** ** Session state and the rendered page *)

(** The three keys of [st.session_state] the script owns.  Lines 30-31 and
    151-155 create them on the first run, so every callback and handler
    finds them present. *)
Record SessionState : Type := mkSession {
  chat_history : list (string * string);
  model_history : History;
  chat_session : option ChatSession
}.

Definition initial_session_state : SessionState :=
  mkSession [] [] None.

(** What the script draws while it runs. *)
Inductive Element : Type :=
| ChatMessage (name body : string)   (* with st.chat_message(name): st.markdown(body) *)
| Placeholder (body : string)        (* message_placeholder.markdown(body) *)
| ErrorBox (body : string).          (* st.error(body) *)

Record Page : Type := mkPage {
  session_state : SessionState;
  rendered : list Element
}.

(** ** The script monad: state, drawing, exceptions *)

Definition Script (A : Type) : Type := Page -> PyResult A * Page.

Definition ret {A} (a : A) : Script A := fun p => (Ok a, p).

Definition bind {A B} (m : Script A) (k : A -> Script B) : Script B :=
  fun p =>
    match m p with
    | (Ok a, p') => k a p'
    | (Raise e, p') => (Raise e, p')
    end.

Notation "x <- m ;; k" := (bind m (fun x => k))
  (at level 61, m at next level, right associativity).
Notation "m ;;; k" := (bind m (fun _ => k))
  (at level 61, right associativity).

(** An expression of the client library evaluated inside the script. *)
Definition eval {A} (v : PyResult A) : Script A := fun p => (v, p).

(** [try: body / except Exception as e: handler e].  A [PyException] is an
    instance of [Exception], so the handler takes every [Raise].  What
    [body] wrote before it raised stays written. *)
Definition try_except {A} (body : Script A) (handler : PyException -> Script A)
  : Script A :=
  fun p =>
    match body p with
    | (Ok a, p') => (Ok a, p')
    | (Raise e, p') => handler e p'
    end.

Definition get_session : Script SessionState :=
  fun p => (Ok (session_state p), p).

Definition modify_session (f : SessionState -> SessionState) : Script unit :=
  fun p => (Ok tt, mkPage (f (session_state p)) (rendered p)).

Definition draw (e : Element) : Script unit :=
  fun p => (Ok tt, mkPage (session_state p) (rendered p ++ [e])).

Definition set_chat_history (v : list (string * string)) : Script unit :=
  modify_session (fun s => mkSession v (model_history s) (chat_session s)).

Definition set_model_history (v : History) : Script unit :=
  modify_session (fun s => mkSession (chat_history s) v (chat_session s)).

Definition set_chat_session (v : option ChatSession) : Script unit :=
  modify_session (fun s => mkSession (chat_history s) (model_history s) v).

(** [st.session_state['chat_history'].append(entry)] *)
Definition append_chat_history (entry : string * string) : Script unit :=
  modify_session (fun s =>
    mkSession (chat_history s ++ [entry]) (model_history s) (chat_session s)).

(** ** Lines 21-27 *)

Definition MODEL_NAME : string := "gemini-2.5-flash".

(** [reset_history]: two assignments, no [return]. *)
Definition reset_history : Script unit :=
  set_chat_history [] ;;;
  set_model_history [].

(** ** Lines 33-55 *)

Definition get_gemini_response (r : Remote) (system_prompt question : string)
  : Script (option Response) :=
  try_except
    (model <- eval (new_GenerativeModel r MODEL_NAME system_prompt) ;;
     s <- get_session ;;
     chat <- eval (start_chat r model (model_history s)) ;;
     set_chat_session (Some chat) ;;;
     response <- eval (send_message r chat question) ;;
     ret (Some response))
    (fun e =>
       draw (ErrorBox ("An API error occurred: " ++ message e)) ;;;
       ret None).

(** ** Lines 59-116: the seven select boxes

    Each [st.selectbox] returns one of the labels of its tuple. *)

Inductive AgeGroup : Type := Age18_25 | Age26_35 | Age36_50 | Age51Plus.
Inductive Income : Type := IncomeUnder20k | Income20k_50k | Income50k_1L | IncomeOver1L.
Inductive InterestRate : Type := RateNone | RateUnder8 | Rate8_15 | RateOver15.
Inductive RiskTolerance : Type := Conservative | Moderate | Aggressive.
Inductive Goal : Type := DebtReduction | RetirementPlanning | LargePurchase | WealthBuilding.
Inductive TimeHorizon : Type := ShortTerm | MediumTerm | LongTerm.
Inductive Knowledge : Type := Novice | Familiar | ExperiencedInvestor | Professional.

Definition age_group_label (a : AgeGroup) : string :=
  match a with
  | Age18_25 => "18-25 (Young Professional)"
  | Age26_35 => "26-35 (Family Planning)"
  | Age36_50 => "36-50 (Mid-Career)"
  | Age51Plus => "51+ (Pre/Post Retirement)"
  end.

Definition income_label (i : Income) : string :=
  match i with
  | IncomeUnder20k => "Less than ₹20,000"
  | Income20k_50k => "₹20,000 - ₹50,000"
  | Income50k_1L => "₹50,000 - ₹1,00,000"
  | IncomeOver1L => "More than ₹1,00,000"
  end.

Definition interest_rate_label (i : InterestRate) : string :=
  match i with
  | RateNone => "None (No significant debt)"
  | RateUnder8 => "Under 8% (e.g., Home/Auto Loan)"
  | Rate8_15 => "8% - 15% (e.g., Personal Loan)"
  | RateOver15 => "Over 15% (e.g., Credit Card/High-Interest Debt)"
  end.

Definition risk_tolerance_label (r : RiskTolerance) : string :=
  match r with
  | Conservative => "Conservative (Safety first)"
  | Moderate => "Moderate (Balanced growth and safety)"
  | Aggressive => "Aggressive (High growth, high risk)"
  end.

Definition goal_label (g : Goal) : string :=
  match g with
  | DebtReduction => "Debt Reduction"
  | RetirementPlanning => "Retirement Planning"
  | LargePurchase => "Large Purchase (e.g., house/car)"
  | WealthBuilding => "General Wealth Building"
  end.

Definition time_horizon_label (t : TimeHorizon) : string :=
  match t with
  | ShortTerm => "Short-term (1-3 years)"
  | MediumTerm => "Medium-term (3-10 years)"
  | LongTerm => "Long-term (10+ years)"
  end.

Definition knowledge_label (k : Knowledge) : string :=
  match k with
  | Novice => "Novice"
  | Familiar => "Familiar"
  | ExperiencedInvestor => "Experienced Investor"
  | Professional => "Professional"
  end.

(** The values of the seven widgets during one run. *)
Record Profile : Type := mkProfile {
  sel_age_group : AgeGroup;
  sel_income : Income;
  sel_interest_rate : InterestRate;
  sel_risk_tolerance : RiskTolerance;
  sel_goal : Goal;
  sel_time_horizon : TimeHorizon;
  sel_knowledge : Knowledge
}.

(** ** Lines 134-148: the f-string *)

Definition nl : string := String (ascii_of_nat 10) EmptyString.

Definition system_prompt
  (age_group income interest_rate risk_tolerance goal time_horizon knowledge : string)
  : string :=
  nl ++
  "You are a highly qualified and ethical Financial Planner. Your specialization is creating customized financial plans." ++ nl ++
  "Your goal is to provide safe, realistic, and personalized advice based on the user's financial profile:" ++ nl ++
  "- **Age Group:** " ++ age_group ++ nl ++
  "- **Monthly Income:** " ++ income ++ " (Rupees)" ++ nl ++
  "- **Average Debt Interest Rate:** " ++ interest_rate ++ nl ++
  "- **Risk Tolerance:** " ++ risk_tolerance ++ nl ++
  "- **Primary Financial Goal:** " ++ goal ++ nl ++
  "- **Investment Time Horizon:** " ++ time_horizon ++ nl ++
  "- **Financial Knowledge Level:** " ++ knowledge ++ nl ++
  nl ++
  "Always tailor your response to these settings. For example, if 'Average Debt Interest Rate' is 'Over 15%', prioritize debt payoff methods (like Avalanche or Snowball) over new investments. For a '18-25 (Young Professional)', suggest higher risk/equity exposure. For a '51+ (Pre/Post Retirement)', suggest conservative, income-generating instruments. Use a tone appropriate for a user with a " ++ knowledge ++ " level of knowledge. Provide clear steps and actionable recommendations focused on achieving the user's " ++ goal ++ " within a " ++ risk_tolerance ++ " risk framework. If the user asks for investment advice, prioritize safety and diversification. DO NOT provide specific buy/sell recommendations, only general asset allocation advice." ++ nl ++
  nl ++
  "CRITICAL INSTRUCTION: When providing investment or financial product recommendations, **ALWAYS format them as a numbered or bulleted list** for the clearest possible output, explaining how each option aligns with the user's profile." ++ nl.

(** The prompt of a run: the f-string over the labels the widgets return. *)
Definition compile_profile (p : Profile) : string :=
  system_prompt
    (age_group_label (sel_age_group p))
    (income_label (sel_income p))
    (interest_rate_label (sel_interest_rate p))
    (risk_tolerance_label (sel_risk_tolerance p))
    (goal_label (sel_goal p))
    (time_horizon_label (sel_time_horizon p))
    (knowledge_label (sel_knowledge p)).

(** [needle in haystack], Python's substring test on [str]. *)
Fixpoint is_prefix (needle haystack : string) : bool :=
  match needle, haystack with
  | EmptyString, _ => true
  | String a n', String b h' => Ascii.eqb a b && is_prefix n' h'
  | String _ _, EmptyString => false
  end.

Fixpoint contains (needle haystack : string) : bool :=
  is_prefix needle haystack ||
  match haystack with
  | EmptyString => false
  | String _ h' => contains needle h'
  end.

(** ** Lines 170-173: how a transcript entry is shown *)

Definition speaker (entry_role : string) : string :=
  if String.eqb entry_role "You" then "user" else "assistant".

(** ** Lines 179-218: the chat-input block *)

(** Truth value of a [str]. *)
Definition truthy (s : string) : bool :=
  match s with
  | EmptyString => false
  | String _ _ => true
  end.

(** Lines 198-205, the [for chunk in response_stream] loop over the chunks
    the iterator yields; [full_response] is the running buffer. *)
Fixpoint stream_loop (cs : list Chunk) (full_response : string) : Script string :=
  match cs with
  | [] => ret full_response
  | chunk :: rest =>
      match text chunk with
      | Ok t =>
          if truthy t then
            draw (Placeholder ((full_response ++ t) ++ "▌")) ;;;
            stream_loop rest (full_response ++ t)
          else stream_loop rest full_response
      | Raise e =>
          if is_ValueError e then stream_loop rest full_response
          else eval (Raise e)
      end
  end.

(** The iterator's end: [StopIteration], or the exception it raises. *)
Definition end_of_stream (response : Response) : Script unit :=
  match stream_error response with
  | Some e => eval (Raise e)
  | None => ret tt
  end.

(** Lines 213-218: mirror the history of the chat held in the session.
    A chat object is truthy, so the test of line 214 only asks whether the
    entry is [None]. *)
Definition save_model_history (r : Remote) : Script unit :=
  s <- get_session ;;
  match chat_session s with
  | Some chat =>
      try_except
        (h <- eval (history r chat) ;; set_model_history h)
        (fun e => draw (ErrorBox ("Error saving model history: " ++ message e)))
  | None => ret tt
  end.

(** Lines 180-218, run when [st.chat_input] returned [prompt].  A response
    object is truthy, so the test of line 197 only asks whether
    [get_gemini_response] returned [None]. *)
Definition submit (r : Remote) (instruction prompt : string) : Script unit :=
  draw (ChatMessage "user" prompt) ;;;
  append_chat_history ("You", prompt) ;;;
  response_stream <- get_gemini_response r instruction prompt ;;
  match response_stream with
  | Some response =>
      full_response <- stream_loop (chunks response) "" ;;
      end_of_stream response ;;;
      draw (Placeholder full_response) ;;;
      append_chat_history ("Bot", full_response)
  | None => ret tt
  end ;;;
  save_model_history r.

(** Line 179: [if prompt := st.chat_input(...)]; [None] when nothing was
    sent, and an empty string is falsy as well. *)
Definition chat_input_block (r : Remote) (instruction : string)
  (chat_input : option string) : Script unit :=
  match chat_input with
  | Some prompt => if truthy prompt then submit r instruction prompt else ret tt
  | None => ret tt
  end.

(** ** Vocabulary of the specification *)

(** The chat that line 45 opens during a run that starts in session [s]
    with prompt text [instruction]. *)
Definition opened_chat (instruction : string) (s : SessionState) : ChatSession :=
  mkChat (mkModel MODEL_NAME instruction) (model_history s).

(** Lines 40-45 run without raising. *)
Definition chat_opens (r : Remote) (instruction : string) (s : SessionState) : Prop :=
  model_error r MODEL_NAME instruction = None /\
  start_chat_error r (mkModel MODEL_NAME instruction) (model_history s) = None.

(** The remote call of line 50 answers with the stream [response]. *)
Definition call_succeeds (r : Remote) (instruction prompt : string)
  (s : SessionState) (response : Response) : Prop :=
  chat_opens r instruction s /\
  send_message r (opened_chat instruction s) prompt = Ok response.

(** The remote call of line 50 raises [e]. *)
Definition call_fails (r : Remote) (instruction prompt : string)
  (s : SessionState) (e : PyException) : Prop :=
  chat_opens r instruction s /\
  send_message r (opened_chat instruction s) prompt = Raise e.

(** A chunk whose [text] can be read, or whose failure is a [ValueError]
    (a fragment that does not decode). *)
Definition readable (c : Chunk) : bool :=
  match text c with
  | Ok _ => true
  | Raise e => is_ValueError e
  end.

(** The stream is consumed to its end: no chunk breaks the loop and the
    iterator stops by itself. *)
Definition exhausted (response : Response) : Prop :=
  forallb readable (chunks response) = true /\ stream_error response = None.

(** The text fragments a stream yields, in order; a chunk that does not
    decode yields none. *)
Definition fragment_of (c : Chunk) : list string :=
  match text c with
  | Ok t => [t]
  | Raise _ => []
  end.

Definition fragments (cs : list Chunk) : list string :=
  flat_map fragment_of cs.

(** In-order concatenation, [''.join(l)]. *)
Definition join (l : list string) : string :=
  fold_right append "" l.

(** A chat that has received no reply has nothing to report but the
    history it was opened with: reading [chat.history] gives that history,
    unless the read itself raises. *)
Definition keeps_seed (r : Remote) (chat : ChatSession) : Prop :=
  match history r chat with
  | Ok h => h = chat_seed chat
  | Raise _ => True
  end.

(** What the loop of lines 198-205 draws when it runs to the end of [cs]
    starting from the buffer [full_response]. *)
Fixpoint placeholders (cs : list Chunk) (full_response : string) : list Element :=
  match cs with
  | [] => []
  | chunk :: rest =>
      match text chunk with
      | Ok t =>
          if truthy t then
            Placeholder ((full_response ++ t) ++ "▌") :: placeholders rest (full_response ++ t)
          else placeholders rest full_response
      | Raise _ => placeholders rest full_response
      end
  end.

(** ** Sample runs *)

Definition ex_credential_error : PyException :=
  mkException false "No API_KEY or ADC found.".

Definition ex_decode_error : PyException :=
  mkException true "Invalid operation: the response has no valid Part.".

Definition ex_history_error : PyException :=
  mkException false "Unable to build a coherent chat history".

Definition ex_prompt : string := "How should I invest ₹10,000?".

Definition ex_profile : Profile :=
  mkProfile Age18_25 Income20k_50k RateNone Aggressive WealthBuilding LongTerm Novice.

Definition ex_instruction : string := compile_profile ex_profile.

Definition ex_turns : History :=
  [mkContent "user" "Hello"; mkContent "model" "Hi, how can I help?"].

Definition ex_reply : History :=
  [mkContent "user" ex_prompt; mkContent "model" "Start with an index fund."].

Definition ex_chunks : list Chunk :=
  [mkChunk (Ok "Start with "); mkChunk (Raise ex_decode_error);
   mkChunk (Ok ""); mkChunk (Ok "an index fund.")].

(** A service that answers: the stream [response], then the history [h]. *)
Definition remote_answering (response : Response) (h : PyResult History) : Remote :=
  mkRemote (fun _ _ => None) (fun _ _ => None)
           (fun _ _ => Ok response) (fun _ => h).

(** A service whose call raises [e]; the chat it opened keeps its seed. *)
Definition remote_refusing (e : PyException) : Remote :=
  mkRemote (fun _ _ => None) (fun _ _ => None)
           (fun _ _ => Raise e) (fun chat => Ok (chat_seed chat)).

Definition ex_remote_ok : Remote :=
  remote_answering (mkResponse ex_chunks None) (Ok ex_reply).




Definition ex_remote_broken_history : Remote :=
  remote_answering (mkResponse ex_chunks None) (Raise ex_history_error).

Definition ex_remote_no_key : Remote :=
  remote_refusing ex_credential_error.

Definition fresh_page : Page := mkPage initial_session_state [].

(** A session after one exchange: two transcript entries, the mirrored
    history, and the chat of that exchange. *)
Definition ex_old_chat : ChatSession :=
  mkChat (mkModel MODEL_NAME ex_instruction) [].

Definition ex_active_page : Page :=
  mkPage (mkSession [("You", "Hello"); ("Bot", "Hi, how can I help?")]
                    ex_turns (Some ex_old_chat)) [].

(** ** Lines 30-31 and 150-155: the keys of [st.session_state]

    Before the first run the three keys do not exist.  [Store] is the
    session state with each key present or absent; [SessionState] above is
    a store in which all three are present. *)

Record Store : Type := mkStore {
  key_chat_history : option (list (string * string));
  key_model_history : option History;
  key_chat_session : option (option ChatSession)
}.

Definition empty_store : Store := mkStore None None None.

(** Lines 30-31: [if 'chat_session' not in st.session_state]. *)
Definition init_chat_session (st : Store) : Store :=
  match key_chat_session st with
  | None => mkStore (key_chat_history st) (key_model_history st) (Some None)
  | Some _ => st
  end.

(** Lines 151-152. *)
Definition init_chat_history (st : Store) : Store :=
  match key_chat_history st with
  | None => mkStore (Some []) (key_model_history st) (key_chat_session st)
  | Some _ => st
  end.

(** Lines 154-155. *)
Definition init_model_history (st : Store) : Store :=
  match key_model_history st with
  | None => mkStore (key_chat_history st) (Some []) (key_chat_session st)
  | Some _ => st
  end.

(** Lines 26-27 on a store: the two assignments create the keys when they
    are absent. *)
Definition reset_history_keys (st : Store) : Store :=
  mkStore (Some []) (Some []) (key_chat_session st).

Definition store_of (s : SessionState) : Store :=
  mkStore (Some (chat_history s)) (Some (model_history s)) (Some (chat_session s)).

(** Reading the three keys by indexing, as lines 166-216 do; [None] when
    one of them is absent, where Python raises [KeyError]. *)
Definition session_of (st : Store) : option SessionState :=
  match key_chat_history st, key_model_history st, key_chat_session st with
  | Some t, Some h, Some c => Some (mkSession t h c)
  | _, _, _ => None
  end.

(** ** Lines 165-173: the history shown at the top of the chat container *)

Inductive Shown : Type :=
| Greeting (html : string)       (* st.markdown(html, unsafe_allow_html=True) *)
| Bubble (name body : string).   (* with st.chat_message(name): st.markdown(body) *)

Definition greeting (goal : string) : string :=
  "<p class='greeting-message'>**Hello! I am your AI Financial Planner. I'm ready to help you plan for your goal: "
    ++ goal ++ "**</p>".

Definition show_history (goal : string) (s : SessionState) : list Shown :=
  (match chat_history s with
   | [] => [Greeting (greeting goal)]
   | _ :: _ => []
   end)
  ++ map (fun entry => Bubble (speaker (fst entry)) (snd entry)) (chat_history s).

(** ** One execution of the script *)

(** What the widgets return during a run: the seven selections, whether the
    clear button was pressed, and the chat input. *)
Record Widgets : Type := mkWidgets {
  profile : Profile;
  clear_clicked : bool;
  chat_input : option string
}.

(** What a run leaves: the history it showed and the outcome and page of
    the chat-input block. *)
Record Run : Type := mkRun {
  history_view : list Shown;
  block_result : PyResult unit;
  final_page : Page
}.

(** The script from line 30 to line 218, in the order of the file: the
    handle key, the button of line 121, the prompt, the two history keys,
    the history view, the chat-input block.  [None] stands for a
    [KeyError] on one of the three keys. *)
Definition run_script (r : Remote) (w : Widgets) (st : Store) : option Run :=
  let st1 := init_chat_session st in
  let st2 := if clear_clicked w then reset_history_keys st1 else st1 in
  let system_prompt := compile_profile (profile w) in
  let st3 := init_model_history (init_chat_history st2) in
  match session_of st3 with
  | Some s =>
      let view := show_history (goal_label (sel_goal (profile w))) s in
      let out := chat_input_block r system_prompt (chat_input w) (mkPage s []) in
      Some (mkRun view (fst out) (snd out))
  | None => None
  end.

(** The store a run leaves behind; an uncaught exception keeps what was
    written before it. *)
Definition store_after (st : Store) (run : option Run) : Store :=
  match run with
  | Some x => store_of (session_state (final_page x))
  | None => st
  end.

(** What a user does, and how the service behaves during the run that
    follows.  A select box calls [reset_history] ([on_change]) before the
    script runs again. *)
Inductive Event : Type :=
| SelectionChanged (r : Remote) (w : Widgets)
| Rerun (r : Remote) (w : Widgets).

Definition after_event (st : Store) (ev : Event) : Store :=
  match ev with
  | SelectionChanged r w =>
      store_after (reset_history_keys st) (run_script r w (reset_history_keys st))
  | Rerun r w => store_after st (run_script r w st)
  end.

Definition after_events (evs : list Event) : Store :=
  fold_left after_event evs empty_store.

(** ** Where a stream breaks *)

(** The exception of the first chunk whose [text] raises something that
    line 204 does not catch. *)
Fixpoint first_break (cs : list Chunk) : option PyException :=
  match cs with
  | [] => None
  | c :: rest =>
      match text c with
      | Ok _ => first_break rest
      | Raise e => if is_ValueError e then first_break rest else Some e
      end
  end.

(** The chunks the loop gets through before that. *)
Fixpoint before_break (cs : list Chunk) : list Chunk :=
  match cs with
  | [] => []
  | c :: rest =>
      match text c with
      | Ok _ => c :: before_break rest
      | Raise e => if is_ValueError e then c :: before_break rest else []
      end
  end.

(** The exception that ends the consumption of a response early, if any:
    a chunk that breaks the loop, or else the iterator itself. *)
Definition stream_failure (response : Response) : option PyException :=
  match first_break (chunks response) with
  | Some e => Some e
  | None => stream_error response
  end.

(** The session the chat container and the chat-input block of a run work
    on: keys that were absent hold their first value, and the two histories
    are empty when the clear button was pressed. *)
Definition start_session (w : Widgets) (st : Store) : SessionState :=
  mkSession
    (if clear_clicked w then []
     else match key_chat_history st with Some t => t | None => [] end)
    (if clear_clicked w then []
     else match key_model_history st with Some h => h | None => [] end)
    (match key_chat_session st with Some c => c | None => None end).

(** The mark that line 203 puts after the text received so far. *)
Definition cursor : string := "▌".

(** ** Shape of a transcript *)

(** Every entry is the user's or the assistant's, and an entry of the
    assistant comes directly after an entry of the user. *)
Fixpoint answers_follow (after_user : bool) (t : list (string * string)) : bool :=
  match t with
  | [] => true
  | (who, _) :: rest =>
      if String.eqb who "You" then answers_follow true rest
      else if String.eqb who "Bot" then after_user && answers_follow false rest
      else false
  end.

Definition orderly (t : list (string * string)) : bool := answers_follow false t.

(** What a store promises to the next run. *)
Definition store_invariant (st : Store) : Prop :=
  (forall t, key_chat_history st = Some t -> orderly t = true) /\
  (forall h, key_model_history st = Some h -> h <> [] ->
             exists chat, key_chat_session st = Some (Some chat)).

(** The same facts on a complete session. *)
Definition session_invariant (s : SessionState) : Prop :=
  orderly (chat_history s) = true /\
  (model_history s <> [] -> chat_session s <> None).

(** The bubble line 172 draws for one entry of the transcript. *)
Definition bubble (entry : string * string) : Shown :=
  Bubble (speaker (fst entry)) (snd entry).

Definition ex_remote_cut : Remote :=
  remote_answering
    (mkResponse [mkChunk (Ok "Start with "); mkChunk (Raise ex_history_error);
                 mkChunk (Ok "an index fund.")] None)
    (Ok ex_reply).

Definition ex_remote_dropped : Remote :=
  remote_answering (mkResponse ex_chunks (Some ex_credential_error)) (Ok ex_reply).

Definition ex_widgets (input : option string) : Widgets :=
  mkWidgets ex_profile false input.

(** A service whose model object cannot even be built; the chat of an
    earlier exchange still answers with its two turns. *)
Definition ex_remote_no_model : Remote :=
  mkRemote (fun _ _ => Some ex_credential_error) (fun _ _ => None)
           (fun _ _ => Raise ex_credential_error) (fun _ => Ok ex_turns).

Definition ex_cleared_page : Page :=
  mkPage (mkSession [] [] (Some ex_old_chat)) [].

(** * Properties *)

(** ** Strings *)

Lemma append_nil_r (a : string) : a ++ "" = a.
Proof. induction a as [|c a IH]; simpl; [reflexivity | now rewrite IH]. Qed.

Lemma append_assoc (a b c : string) : (a ++ b) ++ c = a ++ (b ++ c).
Proof. induction a as [|x a IH]; simpl; [reflexivity | now rewrite IH]. Qed.

Lemma is_prefix_app (needle rest : string) : is_prefix needle (needle ++ rest) = true.
Proof.
  induction needle as [|c n IH]; simpl.
  - reflexivity.
  - now rewrite Ascii.eqb_refl, IH.
Qed.

Lemma contains_here (needle rest : string) : contains needle (needle ++ rest) = true.
Proof.
  destruct (needle ++ rest) eqn:E; simpl; rewrite <- E, is_prefix_app; reflexivity.
Qed.

Lemma contains_later (needle skipped rest : string) :
  contains needle rest = true -> contains needle (skipped ++ rest) = true.
Proof.
  intros H. induction skipped as [|c b IH]; simpl.
  - exact H.
  - rewrite IH. apply orb_true_r.
Qed.

(** Walks down a right-nested concatenation to the first piece that is the
    needle itself. *)
Ltac find_piece :=
  repeat first [ apply contains_here | apply contains_later ].

Lemma join_app (l1 l2 : list string) : join (l1 ++ l2) = join l1 ++ join l2.
Proof.
  induction l1 as [|x l1 IH]; simpl.
  - reflexivity.
  - now rewrite IH, append_assoc.
Qed.

(** ** The prompt: every field appears in the text *)

Section Prompt.

Variables a i d k g h n : string.

Lemma prompt_has_age_group : contains a (system_prompt a i d k g h n) = true.
Proof. unfold system_prompt. find_piece. Qed.

Lemma prompt_has_income : contains i (system_prompt a i d k g h n) = true.
Proof. unfold system_prompt. find_piece. Qed.

Lemma prompt_has_interest_rate : contains d (system_prompt a i d k g h n) = true.
Proof. unfold system_prompt. find_piece. Qed.

Lemma prompt_has_risk_tolerance : contains k (system_prompt a i d k g h n) = true.
Proof. unfold system_prompt. find_piece. Qed.

Lemma prompt_has_goal : contains g (system_prompt a i d k g h n) = true.
Proof. unfold system_prompt. find_piece. Qed.

Lemma prompt_has_time_horizon : contains h (system_prompt a i d k g h n) = true.
Proof. unfold system_prompt. find_piece. Qed.

Lemma prompt_has_knowledge : contains n (system_prompt a i d k g h n) = true.
Proof. unfold system_prompt. find_piece. Qed.

End Prompt.

Lemma is_prefix_sound (needle whole : string) :
  is_prefix needle whole = true -> exists after, whole = needle ++ after.
Proof.
  revert whole. induction needle as [|c n IH]; intros whole H.
  - exists whole. reflexivity.
  - destruct whole as [|c' w]; simpl in H; [discriminate|].
    apply andb_true_iff in H. destruct H as [Hc Hn].
    apply Ascii.eqb_eq in Hc. subst c'.
    destruct (IH _ Hn) as [after ->]. exists after. reflexivity.
Qed.

(** [contains] answers [true] only for a verbatim occurrence. *)
Lemma contains_sound (needle whole : string) :
  contains needle whole = true ->
  exists before after, whole = before ++ needle ++ after.
Proof.
  induction whole as [|c w IH]; simpl; intros H.
  - rewrite orb_false_r in H. destruct (is_prefix_sound _ _ H) as [after E].
    exists "", after. exact E.
  - apply orb_true_iff in H. destruct H as [H|H].
    + destruct (is_prefix_sound _ _ H) as [after E]. exists "", after. exact E.
    + destruct (IH H) as (before & after & ->).
      exists (String c before), after. reflexivity.
Qed.

(** C4. The prompt is a function of the seven selections alone: equal
    selections give the same bytes, and the prompt of every selection
    contains the label of each of its seven fields verbatim. *)
Theorem compile_profile_deterministic_and_verbatim :
  (forall p q : Profile,
      p = q ->
      list_byte_of_string (compile_profile p) = list_byte_of_string (compile_profile q)) /\
  (forall p : Profile,
      let prompt := compile_profile p in
      contains (age_group_label (sel_age_group p)) prompt = true /\
      contains (income_label (sel_income p)) prompt = true /\
      contains (interest_rate_label (sel_interest_rate p)) prompt = true /\
      contains (risk_tolerance_label (sel_risk_tolerance p)) prompt = true /\
      contains (goal_label (sel_goal p)) prompt = true /\
      contains (time_horizon_label (sel_time_horizon p)) prompt = true /\
      contains (knowledge_label (sel_knowledge p)) prompt = true).
Proof.
  split.
  - intros p q ->. reflexivity.
  - intros p prompt. subst prompt. unfold compile_profile.
    repeat split.
    + apply prompt_has_age_group.
    + apply prompt_has_income.
    + apply prompt_has_interest_rate.
    + apply prompt_has_risk_tolerance.
    + apply prompt_has_goal.
    + apply prompt_has_time_horizon.
    + apply prompt_has_knowledge.
Qed.

(** ** [reset_history] *)

Lemma reset_history_run (p : Page) :
  reset_history p =
  (Ok tt, mkPage (mkSession [] [] (chat_session (session_state p))) (rendered p)).
Proof. reflexivity. Qed.

(** C5. [reset_history] returns nothing, leaves both the transcript and the
    model history empty whatever they held, draws nothing, and running it
    twice gives the page that running it once gives. *)
Theorem reset_history_clears_both_and_is_idempotent :
  forall p : Page,
    fst (reset_history p) = Ok tt /\
    chat_history (session_state (snd (reset_history p))) = [] /\
    model_history (session_state (snd (reset_history p))) = [] /\
    rendered (snd (reset_history p)) = rendered p /\
    (reset_history ;;; reset_history) p = reset_history p.
Proof.
  intros p. repeat split.
Qed.

(** C6, as the specification words it, fails: the chat of the previous
    exchange is still the session's handle after the reset. *)
Lemma reset_history_handle_survives :
  chat_session (session_state ex_active_page) = Some ex_old_chat /\
  chat_session (session_state (snd (reset_history ex_active_page))) = Some ex_old_chat /\
  chat_session (session_state (snd (reset_history ex_active_page))) <> None.
Proof.
  repeat split. discriminate.
Qed.

(** ** The streaming loop *)

Ltac step_script :=
  unfold bind, ret, eval, draw, try_except, get_session, append_chat_history,
    set_chat_session, set_model_history, set_chat_history, modify_session; simpl.

(** The loop only draws: whatever its outcome, the session is untouched. *)
Lemma stream_loop_session (cs : list Chunk) :
  forall (acc : string) (p : Page),
    session_state (snd (stream_loop cs acc p)) = session_state p.
Proof.
  induction cs as [|c rest IH]; intros acc p; simpl.
  - reflexivity.
  - destruct (text c) as [t|e].
    + destruct (truthy t).
      * step_script. rewrite IH. reflexivity.
      * apply IH.
    + destruct (is_ValueError e); [apply IH | reflexivity].
Qed.

Lemma truthy_false (t : string) : truthy t = false -> t = "".
Proof. destruct t; [reflexivity | discriminate]. Qed.

(** A loop that nothing breaks returns the buffer extended by the
    fragments, in order. *)
Lemma stream_loop_exhausted (cs : list Chunk) :
  forallb readable cs = true ->
  forall (acc : string) (p : Page),
    stream_loop cs acc p =
    (Ok (acc ++ join (fragments cs)),
     mkPage (session_state p) (rendered p ++ placeholders cs acc)).
Proof.
  induction cs as [|c rest IH]; intros Hall acc p; simpl.
  - rewrite append_nil_r, app_nil_r. destruct p; reflexivity.
  - simpl in Hall. apply andb_true_iff in Hall. destruct Hall as [Hc Hrest].
    unfold readable in Hc. unfold fragments, fragment_of in *. simpl.
    destruct (text c) as [t|e]; simpl.
    + destruct (truthy t) eqn:Ht.
      * step_script. rewrite (IH Hrest). simpl.
        rewrite append_assoc, <- app_assoc. reflexivity.
      * rewrite (truthy_false _ Ht). simpl. apply (IH Hrest).
    + rewrite Hc. apply (IH Hrest).
Qed.

(** Dropping a chunk whose [text] raises [ValueError] changes nothing. *)
Lemma stream_loop_skips (before after : list Chunk) (bad : Chunk) (e : PyException) :
  text bad = Raise e -> is_ValueError e = true ->
  forall (acc : string) (p : Page),
    stream_loop (before ++ bad :: after) acc p = stream_loop (before ++ after) acc p.
Proof.
  intros Hbad He. induction before as [|c rest IH]; intros acc p; simpl.
  - rewrite Hbad, He. reflexivity.
  - destruct (text c) as [t|e'].
    + destruct (truthy t).
      * step_script. apply IH.
      * apply IH.
    + destruct (is_ValueError e'); [apply IH | reflexivity].
Qed.

(** ** [get_gemini_response] *)

Section OneRun.

Variables (r : Remote) (instruction prompt : string).

Lemma get_gemini_response_answered (p : Page) (response : Response) :
  call_succeeds r instruction prompt (session_state p) response ->
  get_gemini_response r instruction prompt p =
  (Ok (Some response),
   mkPage (mkSession (chat_history (session_state p)) (model_history (session_state p))
                     (Some (opened_chat instruction (session_state p))))
          (rendered p)).
Proof.
  intros [[Hm Hc] Hs]. unfold get_gemini_response, new_GenerativeModel, start_chat.
  step_script. rewrite Hm. simpl. rewrite Hc. simpl.
  unfold opened_chat in Hs. rewrite Hs. reflexivity.
Qed.

Lemma get_gemini_response_refused (p : Page) (e : PyException) :
  call_fails r instruction prompt (session_state p) e ->
  get_gemini_response r instruction prompt p =
  (Ok None,
   mkPage (mkSession (chat_history (session_state p)) (model_history (session_state p))
                     (Some (opened_chat instruction (session_state p))))
          (rendered p ++ [ErrorBox ("An API error occurred: " ++ message e)])).
Proof.
  intros [[Hm Hc] Hs]. unfold get_gemini_response, new_GenerativeModel, start_chat.
  step_script. rewrite Hm. simpl. rewrite Hc. simpl.
  unfold opened_chat in Hs. rewrite Hs. reflexivity.
Qed.

(** When the chat cannot even be opened the session is left as it was. *)
Lemma get_gemini_response_unopened (p : Page) (e : PyException) :
  model_error r MODEL_NAME instruction = Some e \/
  (model_error r MODEL_NAME instruction = None /\
   start_chat_error r (mkModel MODEL_NAME instruction) (model_history (session_state p)) = Some e) ->
  get_gemini_response r instruction prompt p =
  (Ok None,
   mkPage (session_state p)
          (rendered p ++ [ErrorBox ("An API error occurred: " ++ message e)])).
Proof.
  intros [Hm|[Hm Hc]]; unfold get_gemini_response, new_GenerativeModel, start_chat;
    step_script; rewrite Hm; simpl; [|rewrite Hc; simpl]; reflexivity.
Qed.

(** [get_gemini_response] never raises, and never touches the two
    histories. *)
Lemma get_gemini_response_total (p : Page) :
  exists (answer : option Response) (handle : option ChatSession) (drawn : list Element),
    get_gemini_response r instruction prompt p =
    (Ok answer,
     mkPage (mkSession (chat_history (session_state p)) (model_history (session_state p)) handle)
            (rendered p ++ drawn)).
Proof.
  unfold get_gemini_response, new_GenerativeModel, start_chat. step_script.
  destruct p as [[ch mh cs] rd]. simpl.
  destruct (model_error r MODEL_NAME instruction) as [e|]; simpl.
  { exists None, cs, [ErrorBox ("An API error occurred: " ++ message e)]. reflexivity. }
  destruct (start_chat_error r (mkModel MODEL_NAME instruction) mh) as [e|]; simpl.
  { exists None, cs, [ErrorBox ("An API error occurred: " ++ message e)]. reflexivity. }
  destruct (send_message r (mkChat (mkModel MODEL_NAME instruction) mh) prompt) as [resp|e]; simpl.
  - exists (Some resp), (Some (mkChat (mkModel MODEL_NAME instruction) mh)), [].
    rewrite app_nil_r. reflexivity.
  - exists None, (Some (mkChat (mkModel MODEL_NAME instruction) mh)),
      [ErrorBox ("An API error occurred: " ++ message e)]. reflexivity.
Qed.

(** ** Lines 213-218 *)

Lemma save_model_history_run (p : Page) :
  save_model_history r p =
  match chat_session (session_state p) with
  | Some chat =>
      match history r chat with
      | Ok h =>
          (Ok tt, mkPage (mkSession (chat_history (session_state p)) h (Some chat))
                         (rendered p))
      | Raise e =>
          (Ok tt, mkPage (session_state p)
                         (rendered p ++ [ErrorBox ("Error saving model history: " ++ message e)]))
      end
  | None => (Ok tt, p)
  end.
Proof.
  unfold save_model_history. step_script.
  destruct (chat_session (session_state p)) as [chat|] eqn:E; [|reflexivity].
  step_script. destruct (history r chat); simpl; rewrite ?E; reflexivity.
Qed.

(** ** The chat-input block, case by case *)

(** The call answered and the stream ran to its end. *)
Lemma submit_answered (p : Page) (response : Response) :
  call_succeeds r instruction prompt (session_state p) response ->
  exhausted response ->
  submit r instruction prompt p =
  save_model_history r
    (mkPage (mkSession
               (chat_history (session_state p)
                  ++ [("You", prompt); ("Bot", join (fragments (chunks response)))])
               (model_history (session_state p))
               (Some (opened_chat instruction (session_state p))))
            (rendered p
               ++ ChatMessage "user" prompt
               :: placeholders (chunks response) ""
               ++ [Placeholder (join (fragments (chunks response)))])).
Proof.
  intros Hcall [Hall Hend]. unfold submit.
  unfold bind at 1. simpl. unfold bind at 1. simpl.
  unfold bind at 1.
  rewrite (get_gemini_response_answered
             (mkPage (mkSession (chat_history (session_state p) ++ [("You", prompt)])
                                (model_history (session_state p))
                                (chat_session (session_state p)))
                     (rendered p ++ [ChatMessage "user" prompt])) response).
  2: { exact Hcall. }
  simpl. unfold bind at 1. unfold bind at 1.
  rewrite (stream_loop_exhausted _ Hall). simpl.
  unfold end_of_stream. rewrite Hend. step_script.
  repeat rewrite <- app_assoc. simpl. reflexivity.
Qed.

(** The call raised after the chat was opened. *)
Lemma submit_refused (p : Page) (e : PyException) :
  call_fails r instruction prompt (session_state p) e ->
  submit r instruction prompt p =
  save_model_history r
    (mkPage (mkSession
               (chat_history (session_state p) ++ [("You", prompt)])
               (model_history (session_state p))
               (Some (opened_chat instruction (session_state p))))
            (rendered p
               ++ [ChatMessage "user" prompt;
                   ErrorBox ("An API error occurred: " ++ message e)])).
Proof.
  intros Hcall. unfold submit.
  unfold bind at 1. simpl. unfold bind at 1. simpl.
  unfold bind at 1.
  rewrite (get_gemini_response_refused
             (mkPage (mkSession (chat_history (session_state p) ++ [("You", prompt)])
                                (model_history (session_state p))
                                (chat_session (session_state p)))
                     (rendered p ++ [ChatMessage "user" prompt])) e).
  2: { exact Hcall. }
  simpl. step_script. rewrite <- app_assoc. reflexivity.
Qed.

(** The chat could not be opened. *)
Lemma submit_unopened (p : Page) (e : PyException) :
  model_error r MODEL_NAME instruction = Some e \/
  (model_error r MODEL_NAME instruction = None /\
   start_chat_error r (mkModel MODEL_NAME instruction) (model_history (session_state p)) = Some e) ->
  submit r instruction prompt p =
  save_model_history r
    (mkPage (mkSession
               (chat_history (session_state p) ++ [("You", prompt)])
               (model_history (session_state p))
               (chat_session (session_state p)))
            (rendered p
               ++ [ChatMessage "user" prompt;
                   ErrorBox ("An API error occurred: " ++ message e)])).
Proof.
  intros Hcall. unfold submit.
  unfold bind at 1. simpl. unfold bind at 1. simpl.
  unfold bind at 1.
  rewrite (get_gemini_response_unopened
             (mkPage (mkSession (chat_history (session_state p) ++ [("You", prompt)])
                                (model_history (session_state p))
                                (chat_session (session_state p)))
                     (rendered p ++ [ChatMessage "user" prompt])) e).
  2: { exact Hcall. }
  simpl. step_script. rewrite <- app_assoc. reflexivity.
Qed.

Lemma save_model_history_chat_session (p : Page) :
  chat_session (session_state (snd (save_model_history r p))) = chat_session (session_state p).
Proof.
  rewrite save_model_history_run.
  destruct (chat_session (session_state p)) as [chat|] eqn:E; [|exact E].
  destruct (history r chat); simpl; [reflexivity | exact E].
Qed.

(** Once the chat is opened it is the session's handle when the block
    ends, however the call and the stream turn out. *)
Lemma submit_chat_session (p : Page) :
  chat_opens r instruction (session_state p) ->
  chat_session (session_state (snd (submit r instruction prompt p)))
  = Some (opened_chat instruction (session_state p)).
Proof.
  intros Hopen.
  destruct (send_message r (opened_chat instruction (session_state p)) prompt)
    as [response|e] eqn:Hsend.
  - assert (Hcall : call_succeeds r instruction prompt (session_state p) response)
      by (split; assumption).
    unfold submit.
    unfold bind at 1. simpl. unfold bind at 1. simpl.
    unfold bind at 1.
    rewrite (get_gemini_response_answered
               (mkPage (mkSession (chat_history (session_state p) ++ [("You", prompt)])
                                  (model_history (session_state p))
                                  (chat_session (session_state p)))
                       (rendered p ++ [ChatMessage "user" prompt])) response).
    2: { exact Hcall. }
    simpl. unfold bind at 1. unfold bind at 1.
    match goal with |- context [stream_loop ?cs ?acc ?q] =>
      pose proof (stream_loop_session cs acc q) as Hs;
      destruct (stream_loop cs acc q) as [[full|e] q'] end; simpl in Hs.
    + unfold end_of_stream. destruct (stream_error response) as [e|].
      * step_script. rewrite Hs. reflexivity.
      * step_script. rewrite save_model_history_chat_session. simpl.
        rewrite Hs. reflexivity.
    + simpl. rewrite Hs. reflexivity.
  - rewrite (submit_refused p e) by (split; assumption).
    rewrite save_model_history_chat_session. reflexivity.
Qed.

End OneRun.

(** Right-nests list concatenations on both sides of an equation. *)
Ltac flatten_lists :=
  repeat (progress (rewrite <- ?app_assoc; simpl)); rewrite ?app_nil_r.

(** ** Outcomes of a whole submission *)

Section Outcomes.

Variables (r : Remote) (instruction prompt : string) (p : Page).

(** The page a submission reaches when the stream ran to its end. *)
Lemma submit_answered_page (response : Response) :
  call_succeeds r instruction prompt (session_state p) response ->
  exhausted response ->
  submit r instruction prompt p =
  (Ok tt,
   mkPage
     (mkSession
        (chat_history (session_state p)
           ++ [("You", prompt); ("Bot", join (fragments (chunks response)))])
        match history r (opened_chat instruction (session_state p)) with
        | Ok h => h
        | Raise _ => model_history (session_state p)
        end
        (Some (opened_chat instruction (session_state p))))
     (rendered p
        ++ (ChatMessage "user" prompt
            :: placeholders (chunks response) ""
            ++ [Placeholder (join (fragments (chunks response)))])
        ++ match history r (opened_chat instruction (session_state p)) with
           | Ok _ => []
           | Raise e => [ErrorBox ("Error saving model history: " ++ message e)]
           end)).
Proof.
  intros Hcall Hend.
  rewrite (submit_answered r instruction prompt p response Hcall Hend), save_model_history_run. simpl.
  destruct (history r (opened_chat instruction (session_state p))) as [h|e];
    flatten_lists; reflexivity.
Qed.

(** The page a submission reaches when the call raised. *)
Lemma submit_refused_page (e : PyException) :
  call_fails r instruction prompt (session_state p) e ->
  submit r instruction prompt p =
  (Ok tt,
   mkPage
     (mkSession
        (chat_history (session_state p) ++ [("You", prompt)])
        match history r (opened_chat instruction (session_state p)) with
        | Ok h => h
        | Raise _ => model_history (session_state p)
        end
        (Some (opened_chat instruction (session_state p))))
     (rendered p
        ++ [ChatMessage "user" prompt; ErrorBox ("An API error occurred: " ++ message e)]
        ++ match history r (opened_chat instruction (session_state p)) with
           | Ok _ => []
           | Raise e' => [ErrorBox ("Error saving model history: " ++ message e')]
           end)).
Proof.
  intros Hcall.
  rewrite (submit_refused r instruction prompt p e Hcall), save_model_history_run. simpl.
  destruct (history r (opened_chat instruction (session_state p))) as [h|e'];
    flatten_lists; reflexivity.
Qed.

(** When the chat cannot be opened, line 216 reads whatever chat an
    earlier run left in the session. *)
Lemma submit_unopened_page (e : PyException) :
  model_error r MODEL_NAME instruction = Some e \/
  (model_error r MODEL_NAME instruction = None /\
   start_chat_error r (mkModel MODEL_NAME instruction) (model_history (session_state p)) = Some e) ->
  fst (submit r instruction prompt p) = Ok tt /\
  chat_history (session_state (snd (submit r instruction prompt p)))
  = (chat_history (session_state p) ++ [("You", prompt)])%list /\
  chat_session (session_state (snd (submit r instruction prompt p)))
  = chat_session (session_state p) /\
  model_history (session_state (snd (submit r instruction prompt p)))
  = match chat_session (session_state p) with
    | Some old_chat =>
        match history r old_chat with
        | Ok h => h
        | Raise _ => model_history (session_state p)
        end
    | None => model_history (session_state p)
    end.
Proof.
  intros Hcall.
  rewrite (submit_unopened r instruction prompt p e Hcall), save_model_history_run. simpl.
  destruct (chat_session (session_state p)) as [old_chat|] eqn:E; simpl;
    [destruct (history r old_chat); simpl|];
    rewrite ?E; repeat split; reflexivity.
Qed.

End Outcomes.

(** ** The claims about a submission *)

(** C1. When the remote call answers, the stream is consumed to its end and
    the chat reports its history [h], the block returns normally, the
    transcript has grown by exactly the entry of the user followed by the
    entry of the assistant, the model history is [h] whatever it held
    before, and the session's handle is the chat opened from the previous
    model history and the given instruction. *)
Theorem submit_success_appends_two_and_replaces_history
  (r : Remote) (instruction prompt : string) (p : Page)
  (response : Response) (h : History) :
  call_succeeds r instruction prompt (session_state p) response ->
  exhausted response ->
  history r (opened_chat instruction (session_state p)) = Ok h ->
  fst (submit r instruction prompt p) = Ok tt /\
  chat_history (session_state (snd (submit r instruction prompt p)))
  = (chat_history (session_state p)
       ++ [("You", prompt); ("Bot", join (fragments (chunks response)))])%list /\
  length (chat_history (session_state (snd (submit r instruction prompt p))))
  = length (chat_history (session_state p)) + 2 /\
  speaker "You" = "user" /\
  speaker "Bot" = "assistant" /\
  model_history (session_state (snd (submit r instruction prompt p))) = h /\
  chat_session (session_state (snd (submit r instruction prompt p)))
  = Some (mkChat (mkModel MODEL_NAME instruction) (model_history (session_state p))).
Proof.
  intros Hcall Hend Hh.
  rewrite (submit_answered_page r instruction prompt p response Hcall Hend), Hh. simpl.
  repeat split. rewrite length_app. reflexivity.
Qed.

Lemma submit_success_witness :
  chat_history (session_state (snd (submit ex_remote_ok ex_instruction ex_prompt ex_active_page)))
  = [("You", "Hello"); ("Bot", "Hi, how can I help?");
     ("You", ex_prompt); ("Bot", "Start with an index fund.")] /\
  model_history (session_state (snd (submit ex_remote_ok ex_instruction ex_prompt ex_active_page)))
  = ex_reply.
Proof.
  destruct (submit_success_appends_two_and_replaces_history
              ex_remote_ok ex_instruction ex_prompt ex_active_page
              (mkResponse ex_chunks None) ex_reply)
    as (_ & Ht & _ & _ & _ & Hm & _).
  - repeat split.
  - split; reflexivity.
  - reflexivity.
  - split; [rewrite Ht; reflexivity | exact Hm].
Defined.

(** C2. When the remote call raises, the block still returns normally, the
    transcript has grown by exactly one entry, the message of the user, and
    the model history is the one the submission started with; the chat
    opened for the call never received a reply and reports nothing else. *)
Theorem submit_failure_appends_user_only
  (r : Remote) (instruction prompt : string) (p : Page) (e : PyException) :
  call_fails r instruction prompt (session_state p) e ->
  keeps_seed r (opened_chat instruction (session_state p)) ->
  fst (submit r instruction prompt p) = Ok tt /\
  chat_history (session_state (snd (submit r instruction prompt p)))
  = (chat_history (session_state p) ++ [("You", prompt)])%list /\
  length (chat_history (session_state (snd (submit r instruction prompt p))))
  = length (chat_history (session_state p)) + 1 /\
  speaker "You" = "user" /\
  model_history (session_state (snd (submit r instruction prompt p)))
  = model_history (session_state p).
Proof.
  intros Hcall Hseed.
  rewrite (submit_refused_page r instruction prompt p e Hcall). simpl.
  repeat split.
  - rewrite length_app. reflexivity.
  - unfold keeps_seed in Hseed.
    destruct (history r (opened_chat instruction (session_state p))); [exact Hseed | reflexivity].
Qed.

Lemma submit_failure_witness :
  chat_history (session_state (snd (submit ex_remote_no_key ex_instruction ex_prompt ex_active_page)))
  = [("You", "Hello"); ("Bot", "Hi, how can I help?"); ("You", ex_prompt)] /\
  model_history (session_state (snd (submit ex_remote_no_key ex_instruction ex_prompt ex_active_page)))
  = ex_turns.
Proof.
  destruct (submit_failure_appends_user_only
              ex_remote_no_key ex_instruction ex_prompt ex_active_page ex_credential_error)
    as (_ & Ht & _ & _ & Hm).
  - repeat split.
  - reflexivity.
  - split; [rewrite Ht; reflexivity | exact Hm].
Defined.

(** C3. When the call answers and the stream is consumed to its end, the
    entry appended last to the transcript is the assistant's, and its text
    is the concatenation, in order, of the fragments the stream yielded. *)
Theorem assistant_entry_is_concatenation_of_fragments
  (r : Remote) (instruction prompt : string) (p : Page) (response : Response) :
  call_succeeds r instruction prompt (session_state p) response ->
  exhausted response ->
  last (chat_history (session_state (snd (submit r instruction prompt p)))) ("", "")
  = ("Bot", join (fragments (chunks response))) /\
  fst (stream_loop (chunks response) "" p) = Ok (join (fragments (chunks response))).
Proof.
  intros Hcall Hend. split.
  - rewrite (submit_answered_page r instruction prompt p response Hcall Hend). simpl.
    match goal with |- last (?l ++ [?x; ?y])%list _ = _ =>
      change (l ++ [x; y])%list with (l ++ [x] ++ [y])%list end.
    rewrite app_assoc. apply last_last.
  - destruct Hend as [Hall _]. rewrite (stream_loop_exhausted _ Hall). reflexivity.
Qed.

Lemma assistant_entry_witness :
  last (chat_history (session_state (snd (submit ex_remote_ok ex_instruction ex_prompt fresh_page))))
       ("", "")
  = ("Bot", "Start with " ++ "" ++ "an index fund.").
Proof.
  destruct (assistant_entry_is_concatenation_of_fragments
              ex_remote_ok ex_instruction ex_prompt fresh_page (mkResponse ex_chunks None))
    as (Hl & _).
  - repeat split.
  - split; reflexivity.
  - rewrite Hl. reflexivity.
Defined.

(** C6, as the code has it. [reset_history] empties the transcript and the
    model history, whatever they held, and leaves the entry [chat_session]
    as it found it: the handle still is the chat of the previous
    exchange. *)
Theorem reset_history_leaves_chat_session :
  forall p : Page,
    fst (reset_history p) = Ok tt /\
    chat_history (session_state (snd (reset_history p))) = [] /\
    model_history (session_state (snd (reset_history p))) = [] /\
    chat_session (session_state (snd (reset_history p))) = chat_session (session_state p).
Proof.
  intros p. rewrite reset_history_run. repeat split.
Qed.

(** A submission made on the page [reset_history] leaves, if it opens a
    chat, opens it with the empty history and stores it in place of the
    old one. *)
Lemma submit_on_reset_page_starts_empty :
  forall (p : Page) (r : Remote) (instruction prompt : string),
    chat_opens r instruction (session_state (snd (reset_history p))) ->
    chat_session
      (session_state (snd (submit r instruction prompt (snd (reset_history p)))))
    = Some (mkChat (mkModel MODEL_NAME instruction) []).
Proof.
  intros p r instruction prompt Hopen.
  rewrite (submit_chat_session r instruction prompt _ Hopen). reflexivity.
Qed.




(** C8. A chunk whose text raises [ValueError] is passed over: the loop
    behaves on the whole stream exactly as it does on the stream without
    that chunk, so what was accumulated before it is kept and what follows
    is consumed; and when no other chunk breaks the loop, the loop returns
    the buffer extended by the fragments before and after it. *)
Theorem decode_error_is_skipped
  (before after : list Chunk) (bad : Chunk) (e : PyException)
  (acc : string) (p : Page) :
  text bad = Raise e ->
  is_ValueError e = true ->
  stream_loop (before ++ bad :: after) acc p = stream_loop (before ++ after) acc p /\
  (forallb readable before = true ->
   forallb readable after = true ->
   fst (stream_loop (before ++ bad :: after) acc p)
   = Ok (acc ++ join (fragments before) ++ join (fragments after))).
Proof.
  intros Hbad He. split.
  - apply (stream_loop_skips before after bad e Hbad He).
  - intros Hb Ha.
    rewrite (stream_loop_skips before after bad e Hbad He).
    rewrite stream_loop_exhausted.
    + unfold fragments. rewrite flat_map_app. fold (fragments before) (fragments after).
      rewrite join_app. reflexivity.
    + rewrite forallb_app, Hb, Ha. reflexivity.
Qed.

Lemma decode_error_witness :
  fst (stream_loop
         ([mkChunk (Ok "Start with ")] ++ mkChunk (Raise ex_decode_error)
            :: [mkChunk (Ok ""); mkChunk (Ok "an index fund.")])
         "" fresh_page)
  = Ok "Start with an index fund.".
Proof.
  destruct (decode_error_is_skipped
              [mkChunk (Ok "Start with ")] [mkChunk (Ok ""); mkChunk (Ok "an index fund.")]
              (mkChunk (Raise ex_decode_error)) ex_decode_error "" fresh_page)
    as [_ Hall].
  - reflexivity.
  - reflexivity.
  - rewrite Hall; reflexivity.
Defined.

(** C9, as the code has it. In a session that has not exchanged anything
    yet, a remote call that raises leaves the transcript with exactly the
    pending entry of the user and shows the error in the page, and the
    block returns normally; the chat was stored in the session at line 48,
    before the call of line 50, so the session's handle is that chat. *)
Theorem submit_call_error_on_fresh_session
  (r : Remote) (instruction prompt : string) (shown : list Element) (e : PyException) :
  call_fails r instruction prompt initial_session_state e ->
  fst (submit r instruction prompt (mkPage initial_session_state shown)) = Ok tt /\
  chat_history (session_state (snd (submit r instruction prompt (mkPage initial_session_state shown))))
  = [("You", prompt)] /\
  In (ErrorBox ("An API error occurred: " ++ message e))
     (rendered (snd (submit r instruction prompt (mkPage initial_session_state shown)))) /\
  chat_session (session_state (snd (submit r instruction prompt (mkPage initial_session_state shown))))
  = Some (mkChat (mkModel MODEL_NAME instruction) []).
Proof.
  intros Hcall.
  rewrite (submit_refused_page r instruction prompt (mkPage initial_session_state shown) e Hcall).
  cbn [fst snd session_state chat_history model_history chat_session rendered].
  split; [reflexivity|]. split; [reflexivity|]. split; [|reflexivity].
  apply in_or_app. right. apply in_or_app. left. right. left. reflexivity.
Qed.

Lemma submit_call_error_witness :
  chat_history (session_state (snd (submit ex_remote_no_key ex_instruction ex_prompt fresh_page)))
  = [("You", ex_prompt)] /\
  In (ErrorBox "An API error occurred: No API_KEY or ADC found.")
     (rendered (snd (submit ex_remote_no_key ex_instruction ex_prompt fresh_page))) /\
  chat_session (session_state (snd (submit ex_remote_no_key ex_instruction ex_prompt fresh_page)))
  = Some (mkChat (mkModel MODEL_NAME ex_instruction) []).
Proof.
  destruct (submit_call_error_on_fresh_session
              ex_remote_no_key ex_instruction ex_prompt [] ex_credential_error)
    as (_ & Ht & He & Hc).
  - repeat split.
  - split; [exact Ht | split; [exact He | exact Hc]].
Defined.

(** C9, as the specification words it, fails: after the failed call the
    session's handle is the chat opened for it, not [None]. *)
Lemma missing_credential_leaves_a_handle :
  chat_session (session_state fresh_page) = None /\
  send_message ex_remote_no_key (opened_chat ex_instruction initial_session_state) ex_prompt
  = Raise ex_credential_error /\
  chat_session (session_state (snd (submit ex_remote_no_key ex_instruction ex_prompt fresh_page)))
  = Some (mkChat (mkModel MODEL_NAME ex_instruction) []) /\
  chat_session (session_state (snd (submit ex_remote_no_key ex_instruction ex_prompt fresh_page)))
  <> None.
Proof.
  repeat split. discriminate.
Qed.

(** C10. When the stream was consumed to its end but reading the history
    of the chat raises, the block returns normally: the entry of the
    assistant is in the transcript, the model history is the one the
    submission started with, the error is shown in the page, and a next
    submission on the resulting page whose exchange succeeds appends its
    two entries and takes its history from its own chat. *)
Theorem history_read_error_keeps_reply
  (r : Remote) (instruction prompt : string) (p : Page)
  (response : Response) (e : PyException) :
  call_succeeds r instruction prompt (session_state p) response ->
  exhausted response ->
  history r (opened_chat instruction (session_state p)) = Raise e ->
  fst (submit r instruction prompt p) = Ok tt /\
  chat_history (session_state (snd (submit r instruction prompt p)))
  = (chat_history (session_state p)
       ++ [("You", prompt); ("Bot", join (fragments (chunks response)))])%list /\
  model_history (session_state (snd (submit r instruction prompt p)))
  = model_history (session_state p) /\
  In (ErrorBox ("Error saving model history: " ++ message e))
     (rendered (snd (submit r instruction prompt p))) /\
  (forall (r2 : Remote) (instruction2 prompt2 : string) (response2 : Response) (h2 : History),
      call_succeeds r2 instruction2 prompt2
        (session_state (snd (submit r instruction prompt p))) response2 ->
      exhausted response2 ->
      history r2 (opened_chat instruction2 (session_state (snd (submit r instruction prompt p))))
      = Ok h2 ->
      fst (submit r2 instruction2 prompt2 (snd (submit r instruction prompt p))) = Ok tt /\
      chat_history
        (session_state (snd (submit r2 instruction2 prompt2 (snd (submit r instruction prompt p)))))
      = (chat_history (session_state p)
           ++ [("You", prompt); ("Bot", join (fragments (chunks response)));
               ("You", prompt2); ("Bot", join (fragments (chunks response2)))])%list /\
      model_history
        (session_state (snd (submit r2 instruction2 prompt2 (snd (submit r instruction prompt p)))))
      = h2).
Proof.
  intros Hcall Hend Hh.
  pose proof (submit_answered_page r instruction prompt p response Hcall Hend) as Hrun.
  rewrite Hh in Hrun.
  split; [rewrite Hrun; reflexivity|].
  split; [rewrite Hrun; reflexivity|].
  split; [rewrite Hrun; reflexivity|].
  split.
  - rewrite Hrun. cbn [snd rendered].
    apply in_or_app. right. apply in_or_app. right. left. reflexivity.
  - intros r2 instruction2 prompt2 response2 h2 Hcall2 Hend2 Hh2.
    rewrite (submit_answered_page r2 instruction2 prompt2
               (snd (submit r instruction prompt p)) response2 Hcall2 Hend2).
    rewrite Hh2, Hrun.
    cbn [fst snd session_state chat_history model_history chat_session rendered].
    rewrite <- app_assoc. repeat split.
Qed.

Lemma history_read_error_witness :
  chat_history
    (session_state (snd (submit ex_remote_broken_history ex_instruction ex_prompt ex_active_page)))
  = [("You", "Hello"); ("Bot", "Hi, how can I help?");
     ("You", ex_prompt); ("Bot", "Start with an index fund.")] /\
  model_history
    (session_state (snd (submit ex_remote_broken_history ex_instruction ex_prompt ex_active_page)))
  = ex_turns /\
  In (ErrorBox "Error saving model history: Unable to build a coherent chat history")
     (rendered (snd (submit ex_remote_broken_history ex_instruction ex_prompt ex_active_page))).
Proof.
  destruct (history_read_error_keeps_reply
              ex_remote_broken_history ex_instruction ex_prompt ex_active_page
              (mkResponse ex_chunks None) ex_history_error)
    as (_ & Ht & Hm & He & _).
  - repeat split.
  - split; reflexivity.
  - reflexivity.
  - split; [rewrite Ht; reflexivity | split; [exact Hm | exact He]].
Defined.

(** * Further properties of the page *)

(** ** A stream that breaks *)

Lemma first_break_readable (cs : list Chunk) :
  first_break cs = None <-> forallb readable cs = true.
Proof.
  induction cs as [|c rest IH]; simpl.
  - split; reflexivity.
  - unfold readable at 1. destruct (text c) as [t|e]; simpl.
    + exact IH.
    + destruct (is_ValueError e); simpl; [exact IH|].
      split; discriminate.
Qed.

Lemma stream_failure_exhausted (response : Response) :
  stream_failure response = None <-> exhausted response.
Proof.
  unfold stream_failure, exhausted. rewrite <- first_break_readable.
  destruct (first_break (chunks response)); split.
  - discriminate.
  - intros [H _]. discriminate.
  - intros H. split; [reflexivity | exact H].
  - intros [_ H]. exact H.
Qed.

Lemma before_break_readable (cs : list Chunk) : forallb readable (before_break cs) = true.
Proof.
  induction cs as [|c rest IH]; simpl.
  - reflexivity.
  - destruct (text c) as [t|e] eqn:E.
    + simpl. unfold readable at 1. rewrite E. exact IH.
    + destruct (is_ValueError e) eqn:V; simpl; [|reflexivity].
      unfold readable at 1. rewrite E, V. exact IH.
Qed.

Lemma before_break_all (cs : list Chunk) : first_break cs = None -> before_break cs = cs.
Proof.
  induction cs as [|c rest IH]; simpl; intros H.
  - reflexivity.
  - destruct (text c) as [t|e].
    + now rewrite IH.
    + destruct (is_ValueError e); [now rewrite IH | discriminate].
Qed.

(** The loop stops at the first chunk that breaks it, with that chunk's
    exception, having drawn the frames of the chunks before it. *)
Lemma stream_loop_broken (cs : list Chunk) (e : PyException) :
  first_break cs = Some e ->
  forall (acc : string) (p : Page),
    stream_loop cs acc p =
    (Raise e, mkPage (session_state p) (rendered p ++ placeholders (before_break cs) acc)).
Proof.
  induction cs as [|c rest IH]; simpl; intros H acc p.
  - discriminate.
  - destruct (text c) as [t|e'] eqn:E; simpl.
    + rewrite E. destruct (truthy t).
      * step_script. rewrite (IH H). simpl. rewrite <- app_assoc. reflexivity.
      * apply (IH H).
    + destruct (is_ValueError e') eqn:V; simpl.
      * rewrite E. apply (IH H).
      * injection H as <-. unfold eval. rewrite app_nil_r. destruct p; reflexivity.
Qed.

Section BrokenStream.

Variables (r : Remote) (instruction prompt : string) (p : Page).

(** The page a submission reaches when the stream ends early. *)
Lemma submit_broken_page (response : Response) (e : PyException) :
  call_succeeds r instruction prompt (session_state p) response ->
  stream_failure response = Some e ->
  submit r instruction prompt p =
  (Raise e,
   mkPage
     (mkSession (chat_history (session_state p) ++ [("You", prompt)])
                (model_history (session_state p))
                (Some (opened_chat instruction (session_state p))))
     (rendered p
        ++ ChatMessage "user" prompt
        :: placeholders (before_break (chunks response)) "")).
Proof.
  intros Hcall Hfail. unfold submit.
  unfold bind at 1. simpl. unfold bind at 1. simpl.
  unfold bind at 1.
  rewrite (get_gemini_response_answered r instruction prompt
             (mkPage (mkSession (chat_history (session_state p) ++ [("You", prompt)])
                                (model_history (session_state p))
                                (chat_session (session_state p)))
                     (rendered p ++ [ChatMessage "user" prompt])) response).
  2: { exact Hcall. }
  simpl. unfold bind at 1. unfold bind at 1.
  unfold stream_failure in Hfail.
  destruct (first_break (chunks response)) as [e'|] eqn:Hb.
  - injection Hfail as ->.
    rewrite (stream_loop_broken _ _ Hb). simpl.
    rewrite <- app_assoc. reflexivity.
  - rewrite (stream_loop_exhausted _ (proj1 (first_break_readable _) Hb)). simpl.
    unfold end_of_stream. rewrite Hfail. unfold eval. simpl.
    rewrite (before_break_all _ Hb), <- app_assoc. reflexivity.
Qed.

End BrokenStream.

(** ** Every submission, whatever the service does *)

(** The four ways a submission can go. *)
Lemma submit_any (r : Remote) (instruction prompt : string) (p : Page) :
  let s := session_state p in
  let s' := session_state (snd (submit r instruction prompt p)) in
  (chat_history s' = (chat_history s ++ [("You", prompt)])%list \/
   exists full, fst (submit r instruction prompt p) = Ok tt /\
                chat_history s' = (chat_history s ++ [("You", prompt); ("Bot", full)])%list) /\
  (chat_session s' = chat_session s \/
   chat_session s' = Some (opened_chat instruction s)) /\
  (model_history s' = model_history s \/
   exists chat h, chat_session s' = Some chat /\ history r chat = Ok h /\ model_history s' = h).
Proof.
  intros s s'. subst s s'.
  destruct (model_error r MODEL_NAME instruction) as [e|] eqn:Hm.
  { destruct (submit_unopened_page r instruction prompt p e (or_introl Hm))
      as (_ & Ht & Hc & Hh).
    split; [left; exact Ht|]. split; [left; exact Hc|].
    rewrite Hh, Hc.
    destruct (chat_session (session_state p)) as [old|]; [|left; reflexivity].
    destruct (history r old) as [h|e'] eqn:E; [|left; reflexivity].
    right. exists old, h. repeat split. exact E. }
  destruct (start_chat_error r (mkModel MODEL_NAME instruction) (model_history (session_state p)))
    as [e|] eqn:Hc0.
  { destruct (submit_unopened_page r instruction prompt p e (or_intror (conj Hm Hc0)))
      as (_ & Ht & Hc & Hh).
    split; [left; exact Ht|]. split; [left; exact Hc|].
    rewrite Hh, Hc.
    destruct (chat_session (session_state p)) as [old|]; [|left; reflexivity].
    destruct (history r old) as [h|e'] eqn:E; [|left; reflexivity].
    right. exists old, h. repeat split. exact E. }
  assert (Hopen : chat_opens r instruction (session_state p)) by (split; assumption).
  destruct (send_message r (opened_chat instruction (session_state p)) prompt)
    as [response|e] eqn:Hsend.
  - assert (Hcall : call_succeeds r instruction prompt (session_state p) response)
      by (split; assumption).
    destruct (stream_failure response) as [e|] eqn:Hf.
    + rewrite (submit_broken_page r instruction prompt p response e Hcall Hf).
      cbn [fst snd session_state chat_history model_history chat_session].
      split; [left; reflexivity|]. split; [right; reflexivity | left; reflexivity].
    + apply stream_failure_exhausted in Hf.
      rewrite (submit_answered_page r instruction prompt p response Hcall Hf).
      cbn [fst snd session_state chat_history model_history chat_session].
      split; [right; eexists; split; reflexivity|]. split; [right; reflexivity|].
      destruct (history r (opened_chat instruction (session_state p))) as [h|e'] eqn:E;
        [|left; reflexivity].
      right. exists (opened_chat instruction (session_state p)), h. repeat split. exact E.
  - assert (Hcall : call_fails r instruction prompt (session_state p) e)
      by (split; assumption).
    rewrite (submit_refused_page r instruction prompt p e Hcall).
    cbn [fst snd session_state chat_history model_history chat_session].
    split; [left; reflexivity|]. split; [right; reflexivity|].
    destruct (history r (opened_chat instruction (session_state p))) as [h|e'] eqn:E;
      [|left; reflexivity].
    right. exists (opened_chat instruction (session_state p)), h. repeat split. exact E.
Qed.

Lemma placeholders_no_error (cs : list Chunk) :
  forall (acc body : string), ~ In (ErrorBox body) (placeholders cs acc).
Proof.
  induction cs as [|c rest IH]; simpl; intros acc body.
  - intros [].
  - destruct (text c) as [t|e]; [|apply IH].
    destruct (truthy t); [|apply IH].
    intros [H|H]; [discriminate | exact (IH _ _ H)].
Qed.

(** X1. When the call answered but the stream ends early, because a chunk
    raises something other than [ValueError] or because the iterator itself
    raises, the exception leaves the block uncaught: nothing is appended
    for the assistant, the partial reply is not stored, the model history
    is not read back, no error box is drawn, and the chat opened for the
    call stays the session's handle. *)
Theorem submit_stream_break_drops_reply
  (r : Remote) (instruction prompt : string) (p : Page)
  (response : Response) (e : PyException) :
  call_succeeds r instruction prompt (session_state p) response ->
  stream_failure response = Some e ->
  fst (submit r instruction prompt p) = Raise e /\
  chat_history (session_state (snd (submit r instruction prompt p)))
  = (chat_history (session_state p) ++ [("You", prompt)])%list /\
  model_history (session_state (snd (submit r instruction prompt p)))
  = model_history (session_state p) /\
  chat_session (session_state (snd (submit r instruction prompt p)))
  = Some (mkChat (mkModel MODEL_NAME instruction) (model_history (session_state p))) /\
  exists drawn : list Element,
    rendered (snd (submit r instruction prompt p)) = (rendered p ++ drawn)%list /\
    forall body : string, ~ In (ErrorBox body) drawn.
Proof.
  intros Hcall Hfail.
  rewrite (submit_broken_page r instruction prompt p response e Hcall Hfail).
  cbn [fst snd session_state chat_history model_history chat_session rendered].
  repeat split.
  eexists. split; [reflexivity|].
  intros body [H|H]; [discriminate | exact (placeholders_no_error _ _ _ H)].
Qed.

Lemma submit_stream_break_witness :
  fst (submit ex_remote_cut ex_instruction ex_prompt ex_active_page) = Raise ex_history_error /\
  fst (submit ex_remote_dropped ex_instruction ex_prompt ex_active_page)
  = Raise ex_credential_error /\
  chat_history (session_state (snd (submit ex_remote_cut ex_instruction ex_prompt ex_active_page)))
  = [("You", "Hello"); ("Bot", "Hi, how can I help?"); ("You", ex_prompt)].
Proof.
  destruct (submit_stream_break_drops_reply
              ex_remote_cut ex_instruction ex_prompt ex_active_page
              (mkResponse [mkChunk (Ok "Start with "); mkChunk (Raise ex_history_error);
                           mkChunk (Ok "an index fund.")] None)
              ex_history_error) as (Hr & Ht & _).
  - repeat split.
  - reflexivity.
  - destruct (submit_stream_break_drops_reply
                ex_remote_dropped ex_instruction ex_prompt ex_active_page
                (mkResponse ex_chunks (Some ex_credential_error))
                ex_credential_error) as (Hr' & _).
    + repeat split.
    + reflexivity.
    + split; [exact Hr | split; [exact Hr' | rewrite Ht; reflexivity]].
Defined.

Lemma first_break_at (before : list Chunk) (bad : Chunk) (e : PyException) :
  text bad = Raise e ->
  is_ValueError e = false ->
  forallb readable before = true ->
  forall rest : list Chunk,
    first_break (before ++ bad :: rest) = Some e /\
    before_break (before ++ bad :: rest) = before.
Proof.
  intros Hbad He. induction before as [|c b IH]; simpl; intros Hb rest.
  - rewrite Hbad, He. split; reflexivity.
  - apply andb_true_iff in Hb. destruct Hb as [Hc Hb].
    destruct (IH Hb rest) as [IH1 IH2].
    unfold readable in Hc. destruct (text c) as [t|e'].
    + rewrite IH2. split; [exact IH1 | reflexivity].
    + rewrite Hc, IH2. split; [exact IH1 | reflexivity].
Qed.

(** X2. A chunk whose [text] raises anything but [ValueError] ends the
    loop there: the loop raises that exception, and the chunks after it are
    never read, so the outcome and what was drawn do not depend on them. *)
Theorem stream_loop_stops_at_break
  (before after after' : list Chunk) (bad : Chunk) (e : PyException)
  (acc : string) (p : Page) :
  text bad = Raise e ->
  is_ValueError e = false ->
  forallb readable before = true ->
  fst (stream_loop (before ++ bad :: after) acc p) = Raise e /\
  stream_loop (before ++ bad :: after) acc p = stream_loop (before ++ bad :: after') acc p.
Proof.
  intros Hbad He Hb.
  destruct (first_break_at before bad e Hbad He Hb after) as [H1 H2].
  destruct (first_break_at before bad e Hbad He Hb after') as [H1' H2'].
  rewrite (stream_loop_broken _ _ H1), (stream_loop_broken _ _ H1').
  rewrite H2, H2'. split; reflexivity.
Qed.

Lemma stream_loop_stops_witness :
  fst (stream_loop
         ([mkChunk (Ok "Start with ")] ++ mkChunk (Raise ex_history_error)
            :: [mkChunk (Ok "an index fund.")])
         "" fresh_page)
  = Raise ex_history_error.
Proof.
  destruct (stream_loop_stops_at_break
              [mkChunk (Ok "Start with ")] [mkChunk (Ok "an index fund.")] []
              (mkChunk (Raise ex_history_error)) ex_history_error "" fresh_page)
    as [H _].
  - reflexivity.
  - reflexivity.
  - reflexivity.
  - exact H.
Defined.

(** X3. A chunk whose text is the empty string changes nothing: the buffer
    is kept and the placeholder is not redrawn, so the loop behaves as on
    the stream without that chunk. *)
Theorem empty_chunk_is_ignored :
  forall (before after : list Chunk) (acc : string) (p : Page),
    stream_loop (before ++ mkChunk (Ok "") :: after) acc p
    = stream_loop (before ++ after) acc p.
Proof.
  intros before after. induction before as [|c rest IH]; intros acc p; simpl.
  - reflexivity.
  - destruct (text c) as [t|e'].
    + destruct (truthy t).
      * step_script. apply IH.
      * apply IH.
    + destruct (is_ValueError e'); [apply IH | reflexivity].
Qed.

(** ** The frames drawn while streaming *)

Lemma placeholders_length (cs : list Chunk) :
  forall acc : string,
    length (placeholders cs acc) = length (filter truthy (fragments cs)).
Proof.
  induction cs as [|c rest IH]; intros acc; simpl.
  - reflexivity.
  - unfold fragments, fragment_of. simpl. fold fragment_of. fold (fragments rest).
    destruct (text c) as [t|e]; simpl; [|apply IH].
    destruct (truthy t); simpl; rewrite IH; reflexivity.
Qed.

Lemma placeholders_prefix (cs : list Chunk) :
  forall (acc : string) (x : Element),
    In x (placeholders cs acc) ->
    exists k : nat, x = Placeholder ((acc ++ join (firstn k (fragments cs))) ++ cursor).
Proof.
  induction cs as [|c rest IH]; intros acc x; simpl.
  - intros [].
  - unfold fragments, fragment_of. simpl. fold fragment_of. fold (fragments rest).
    destruct (text c) as [t|e]; simpl.
    + destruct (truthy t) eqn:Ht.
      * intros [<-|H].
        -- exists 1. simpl. rewrite append_nil_r. reflexivity.
        -- destruct (IH _ _ H) as [k ->]. exists (S k). simpl.
           rewrite (append_assoc acc t). reflexivity.
      * intros H. destruct (IH _ _ H) as [k ->]. exists (S k). simpl.
        rewrite (truthy_false _ Ht). reflexivity.
    + apply IH.
Qed.

Lemma placeholders_none (cs : list Chunk) :
  forall acc : string, placeholders cs acc = [] -> join (fragments cs) = "".
Proof.
  induction cs as [|c rest IH]; intros acc; simpl.
  - reflexivity.
  - unfold fragments, fragment_of. simpl. fold fragment_of. fold (fragments rest).
    destruct (text c) as [t|e]; simpl; [|apply IH].
    destruct (truthy t) eqn:Ht; [discriminate|].
    intros H. rewrite (truthy_false _ Ht). simpl. exact (IH _ H).
Qed.

Lemma placeholders_last (cs : list Chunk) :
  forall acc : string,
    placeholders cs acc <> [] ->
    last (placeholders cs acc) (Placeholder "")
    = Placeholder ((acc ++ join (fragments cs)) ++ cursor).
Proof.
  induction cs as [|c rest IH]; intros acc; simpl.
  - intros H. now contradiction H.
  - unfold fragments, fragment_of. simpl. fold fragment_of. fold (fragments rest).
    destruct (text c) as [t|e]; simpl; [|apply IH].
    destruct (truthy t) eqn:Ht.
    + intros _. destruct (placeholders rest (acc ++ t)) as [|y ys] eqn:E.
      * rewrite (placeholders_none rest _ E), append_nil_r. reflexivity.
      * cbn [last]. change (match ys with [] => y | _ :: _ => last ys (Placeholder "") end)
          with (last (y :: ys) (Placeholder "")).
        rewrite <- E. rewrite IH by (rewrite E; discriminate).
        rewrite (append_assoc acc t). reflexivity.
    + intros H. rewrite (truthy_false _ Ht). simpl. exact (IH _ H).
Qed.

(** X4. While a stream that nothing breaks is consumed, the placeholder is
    redrawn once for every fragment that is not empty; every frame shows
    the buffer extended by the first fragments of the stream, followed by
    the cursor, and the last frame shows all of them. *)
Theorem streaming_frames_show_growing_reply
  (cs : list Chunk) (acc : string) (p : Page) :
  forallb readable cs = true ->
  exists drawn : list Element,
    rendered (snd (stream_loop cs acc p)) = (rendered p ++ drawn)%list /\
    length drawn = length (filter truthy (fragments cs)) /\
    (forall x : Element,
        In x drawn ->
        exists k : nat, x = Placeholder ((acc ++ join (firstn k (fragments cs))) ++ "▌")) /\
    (drawn <> [] ->
     last drawn (Placeholder "") = Placeholder ((acc ++ join (fragments cs)) ++ "▌")).
Proof.
  intros Hall. exists (placeholders cs acc).
  rewrite (stream_loop_exhausted _ Hall). cbn [snd rendered].
  split; [reflexivity|]. split; [apply placeholders_length|].
  split; [apply placeholders_prefix | apply placeholders_last].
Qed.

Lemma streaming_frames_witness :
  rendered (snd (stream_loop ex_chunks "" fresh_page))
  = [Placeholder "Start with ▌"; Placeholder "Start with an index fund.▌"].
Proof.
  destruct (streaming_frames_show_growing_reply ex_chunks "" fresh_page) as (drawn & H & _).
  - reflexivity.
  - reflexivity.
Defined.

(** ** The two helpers keep the library's errors in

    In this part an exception is an instance of [Exception], as everywhere
    in this file. *)


(** X6. Lines 213-218 let no instance of [Exception] out and never touch
    the transcript or the handle.  Without a handle they do nothing at all;
    with one, the model history either stays or becomes what that handle
    reports. *)
Theorem save_model_history_is_safe :
  forall (r : Remote) (p : Page),
    fst (save_model_history r p) = Ok tt /\
    chat_history (session_state (snd (save_model_history r p))) = chat_history (session_state p) /\
    chat_session (session_state (snd (save_model_history r p))) = chat_session (session_state p) /\
    (chat_session (session_state p) = None -> snd (save_model_history r p) = p) /\
    (model_history (session_state (snd (save_model_history r p))) = model_history (session_state p) \/
     exists (chat : ChatSession) (h : History),
       chat_session (session_state p) = Some chat /\
       history r chat = Ok h /\
       model_history (session_state (snd (save_model_history r p))) = h).
Proof.
  intros r p. rewrite save_model_history_run.
  destruct (chat_session (session_state p)) as [chat|] eqn:E.
  - destruct (history r chat) as [h|e] eqn:Hh;
      cbn [fst snd session_state chat_history model_history chat_session].
    + repeat split; try discriminate. right. exists chat, h. repeat split. exact Hh.
    + repeat split; try discriminate; try exact E. left. reflexivity.
  - cbn [fst snd]. repeat split; try exact E. left. reflexivity.
Qed.

(** ** What no submission does *)

(** X7. Whatever the service does, a submission only appends to the
    transcript: the entries it found are kept in place, and it adds the
    message of the user alone or followed by one entry of the assistant.
    It never clears the handle. *)
Theorem submit_only_appends :
  forall (r : Remote) (instruction prompt : string) (p : Page),
    (exists suffix : list (string * string),
        chat_history (session_state (snd (submit r instruction prompt p)))
        = (chat_history (session_state p) ++ suffix)%list /\
        (suffix = [("You", prompt)] \/
         exists full : string, suffix = [("You", prompt); ("Bot", full)])) /\
    firstn (length (chat_history (session_state p)))
           (chat_history (session_state (snd (submit r instruction prompt p))))
    = chat_history (session_state p) /\
    (chat_session (session_state p) <> None ->
     chat_session (session_state (snd (submit r instruction prompt p))) <> None).
Proof.
  intros r instruction prompt p.
  destruct (submit_any r instruction prompt p) as (Ht & Hc & _).
  assert (Hs : exists suffix : list (string * string),
             chat_history (session_state (snd (submit r instruction prompt p)))
             = (chat_history (session_state p) ++ suffix)%list /\
             (suffix = [("You", prompt)] \/
              exists full : string, suffix = [("You", prompt); ("Bot", full)])).
  { destruct Ht as [Ht|(full & _ & Ht)]; rewrite Ht; eexists; split; try reflexivity.
    - left. reflexivity.
    - right. exists full. reflexivity. }
  split; [exact Hs|]. split.
  - destruct Hs as (suffix & -> & _).
    rewrite firstn_app, Nat.sub_diag, firstn_all. simpl. apply app_nil_r.
  - intros Hsome. destruct Hc as [-> | ->]; [exact Hsome | discriminate].
Qed.

(** An instance of [Exception] leaves a submission only when the call
    answered and the stream failed. *)
Lemma submit_raise_inv (r : Remote) (instruction prompt : string) (p : Page) (e : PyException) :
  fst (submit r instruction prompt p) = Raise e ->
  exists response : Response,
    call_succeeds r instruction prompt (session_state p) response /\
    stream_failure response = Some e.
Proof.
  intros Hraise.
  destruct (model_error r MODEL_NAME instruction) as [e0|] eqn:Hm.
  { destruct (submit_unopened_page r instruction prompt p e0 (or_introl Hm)) as (Hok & _).
    rewrite Hok in Hraise. discriminate. }
  destruct (start_chat_error r (mkModel MODEL_NAME instruction) (model_history (session_state p)))
    as [e0|] eqn:Hc0.
  { destruct (submit_unopened_page r instruction prompt p e0 (or_intror (conj Hm Hc0)))
      as (Hok & _).
    rewrite Hok in Hraise. discriminate. }
  assert (Hopen : chat_opens r instruction (session_state p)) by (split; assumption).
  destruct (send_message r (opened_chat instruction (session_state p)) prompt)
    as [response|e0] eqn:Hsend.
  - assert (Hcall : call_succeeds r instruction prompt (session_state p) response)
      by (split; assumption).
    exists response. split; [exact Hcall|].
    destruct (stream_failure response) as [e1|] eqn:Hf.
    + rewrite (submit_broken_page r instruction prompt p response e1 Hcall Hf) in Hraise.
      simpl in Hraise. injection Hraise as ->. reflexivity.
    + apply stream_failure_exhausted in Hf.
      rewrite (submit_answered_page r instruction prompt p response Hcall Hf) in Hraise.
      discriminate.
  - assert (Hcall : call_fails r instruction prompt (session_state p) e0)
      by (split; assumption).
    rewrite (submit_refused_page r instruction prompt p e0 Hcall) in Hraise. discriminate.
Qed.

(** X8. The only instances of [Exception] that leave the chat-input block
    are those of the stream: if a submission raises such an [e], the call
    had answered, and [e] is the exception of the first chunk the loop does
    not catch or, failing that, of the iterator. *)
Theorem submit_raises_only_stream_errors
  (r : Remote) (instruction prompt : string) (p : Page) (e : PyException) :
  fst (submit r instruction prompt p) = Raise e ->
  exists response : Response,
    send_message r (opened_chat instruction (session_state p)) prompt = Ok response /\
    (first_break (chunks response) = Some e \/
     (first_break (chunks response) = None /\ stream_error response = Some e)).
Proof.
  intros Hraise.
  destruct (submit_raise_inv r instruction prompt p e Hraise) as (response & [_ Hs] & Hf).
  exists response. split; [exact Hs|].
  unfold stream_failure in Hf.
  destruct (first_break (chunks response)) as [e'|].
  - left. exact Hf.
  - right. split; [reflexivity | exact Hf].
Qed.

Lemma submit_raises_witness :
  exists response : Response,
    send_message ex_remote_dropped (opened_chat ex_instruction (session_state fresh_page)) ex_prompt
    = Ok response /\
    (first_break (chunks response) = Some ex_credential_error \/
     (first_break (chunks response) = None /\ stream_error response = Some ex_credential_error)).
Proof.
  apply (submit_raises_only_stream_errors ex_remote_dropped ex_instruction ex_prompt fresh_page).
  reflexivity.
Defined.

(** ** A chat that cannot be opened, and the handle of an earlier run *)

(** X9. When the model object or the chat cannot be created, the handle in
    the session is the one an earlier run left there, and line 216 reads
    the history of that chat: the transcript gets the message of the user,
    the error is shown, and the model history becomes what the old chat
    reports, also when [reset_history] had emptied it in between. *)
Theorem submit_unopened_rereads_old_handle
  (r : Remote) (instruction prompt : string) (p : Page)
  (e : PyException) (old_chat : ChatSession) (h : History) :
  model_error r MODEL_NAME instruction = Some e \/
  (model_error r MODEL_NAME instruction = None /\
   start_chat_error r (mkModel MODEL_NAME instruction) (model_history (session_state p)) = Some e) ->
  chat_session (session_state p) = Some old_chat ->
  history r old_chat = Ok h ->
  fst (submit r instruction prompt p) = Ok tt /\
  chat_history (session_state (snd (submit r instruction prompt p)))
  = (chat_history (session_state p) ++ [("You", prompt)])%list /\
  chat_session (session_state (snd (submit r instruction prompt p))) = Some old_chat /\
  model_history (session_state (snd (submit r instruction prompt p))) = h /\
  In (ErrorBox ("An API error occurred: " ++ message e))
     (rendered (snd (submit r instruction prompt p))).
Proof.
  intros Hcall Hold Hh.
  destruct (submit_unopened_page r instruction prompt p e Hcall) as (Hok & Ht & Hc & Hm).
  rewrite Hold in Hc, Hm. rewrite Hh in Hm.
  repeat split; try assumption.
  rewrite (submit_unopened r instruction prompt p e Hcall), save_model_history_run.
  cbn [session_state chat_session]. rewrite Hold, Hh. cbn [snd rendered].
  apply in_or_app. right. right. left. reflexivity.
Qed.

Lemma submit_unopened_witness :
  model_history (session_state ex_cleared_page) = [] /\
  model_history
    (session_state (snd (submit ex_remote_no_model ex_instruction ex_prompt ex_cleared_page)))
  = ex_turns /\
  chat_history
    (session_state (snd (submit ex_remote_no_model ex_instruction ex_prompt ex_cleared_page)))
  = [("You", ex_prompt)].
Proof.
  destruct (submit_unopened_rereads_old_handle
              ex_remote_no_model ex_instruction ex_prompt ex_cleared_page
              ex_credential_error ex_old_chat ex_turns) as (_ & Ht & _ & Hm & _).
  - left. reflexivity.
  - reflexivity.
  - reflexivity.
  - split; [reflexivity | split; [exact Hm | exact Ht]].
Defined.

(** ** Two submissions in a row *)

(** X10. The history mirrored after one exchange is what the next chat is
    opened with: after a submission whose chat reported [h], the next
    submission that opens a chat stores a chat built from [MODEL_NAME], the
    instruction of that run and [h], however that next call turns out. *)
Theorem next_chat_starts_from_mirrored_history
  (r1 r2 : Remote) (instruction1 instruction2 prompt1 prompt2 : string) (p : Page)
  (response : Response) (h : History) :
  call_succeeds r1 instruction1 prompt1 (session_state p) response ->
  exhausted response ->
  history r1 (opened_chat instruction1 (session_state p)) = Ok h ->
  chat_opens r2 instruction2 (session_state (snd (submit r1 instruction1 prompt1 p))) ->
  chat_session
    (session_state (snd (submit r2 instruction2 prompt2 (snd (submit r1 instruction1 prompt1 p)))))
  = Some (mkChat (mkModel MODEL_NAME instruction2) h).
Proof.
  intros Hcall Hend Hh Hopen.
  rewrite (submit_chat_session r2 instruction2 prompt2 _ Hopen).
  rewrite (submit_answered_page r1 instruction1 prompt1 p response Hcall Hend), Hh.
  reflexivity.
Qed.

Lemma next_chat_witness :
  chat_session
    (session_state
       (snd (submit ex_remote_no_key "Be brief." "And bonds?"
               (snd (submit ex_remote_ok ex_instruction ex_prompt fresh_page)))))
  = Some (mkChat (mkModel MODEL_NAME "Be brief.") ex_reply).
Proof.
  apply (next_chat_starts_from_mirrored_history
           ex_remote_ok ex_remote_no_key ex_instruction "Be brief." ex_prompt "And bonds?"
           fresh_page (mkResponse ex_chunks None) ex_reply).
  - repeat split.
  - split; reflexivity.
  - reflexivity.
  - split; reflexivity.
Defined.

(** X11. A message whose call failed stays in the transcript without an
    answer, and is not part of what the service is given next: when the
    message is sent again and answered, the transcript ends with the
    failed message, the new message and the reply, and the chat of the
    second call was opened with the model history from before the failed
    one. *)
Theorem retry_after_failure
  (r1 r2 : Remote) (instruction prompt1 prompt2 : string) (p : Page)
  (e : PyException) (response : Response) :
  call_fails r1 instruction prompt1 (session_state p) e ->
  keeps_seed r1 (opened_chat instruction (session_state p)) ->
  call_succeeds r2 instruction prompt2
    (session_state (snd (submit r1 instruction prompt1 p))) response ->
  exhausted response ->
  fst (submit r2 instruction prompt2 (snd (submit r1 instruction prompt1 p))) = Ok tt /\
  chat_history
    (session_state (snd (submit r2 instruction prompt2 (snd (submit r1 instruction prompt1 p)))))
  = (chat_history (session_state p)
       ++ [("You", prompt1); ("You", prompt2); ("Bot", join (fragments (chunks response)))])%list /\
  chat_session
    (session_state (snd (submit r2 instruction prompt2 (snd (submit r1 instruction prompt1 p)))))
  = Some (mkChat (mkModel MODEL_NAME instruction) (model_history (session_state p))).
Proof.
  intros Hfail Hseed Hcall Hend.
  assert (Hmh : model_history (session_state (snd (submit r1 instruction prompt1 p)))
                = model_history (session_state p)).
  { rewrite (submit_refused_page r1 instruction prompt1 p e Hfail).
    cbn [snd session_state model_history]. unfold keeps_seed in Hseed.
    destruct (history r1 (opened_chat instruction (session_state p)));
      [exact Hseed | reflexivity]. }
  rewrite (submit_answered_page r2 instruction prompt2 _ response Hcall Hend).
  cbn [fst snd session_state chat_history chat_session].
  unfold opened_chat. rewrite Hmh.
  rewrite (submit_refused_page r1 instruction prompt1 p e Hfail).
  cbn [snd session_state chat_history].
  rewrite <- app_assoc. repeat split.
Qed.

Lemma retry_after_failure_witness :
  chat_history
    (session_state
       (snd (submit ex_remote_ok ex_instruction ex_prompt
               (snd (submit ex_remote_no_key ex_instruction "Hi" fresh_page)))))
  = [("You", "Hi"); ("You", ex_prompt); ("Bot", "Start with an index fund.")].
Proof.
  destruct (retry_after_failure
              ex_remote_no_key ex_remote_ok ex_instruction "Hi" ex_prompt fresh_page
              ex_credential_error (mkResponse ex_chunks None)) as (_ & Ht & _).
  - repeat split.
  - reflexivity.
  - repeat split.
  - split; reflexivity.
  - rewrite Ht. reflexivity.
Defined.

(** ** The keys of the session and a whole run *)

Lemma run_script_start (r : Remote) (w : Widgets) (st : Store) :
  run_script r w st =
  Some (mkRun
          (show_history (goal_label (sel_goal (profile w))) (start_session w st))
          (fst (chat_input_block r (compile_profile (profile w)) (chat_input w)
                  (mkPage (start_session w st) [])))
          (snd (chat_input_block r (compile_profile (profile w)) (chat_input w)
                  (mkPage (start_session w st) [])))).
Proof.
  unfold run_script, start_session, init_chat_session, init_chat_history,
    init_model_history, reset_history_keys, session_of.
  destruct st as [[t|] [h|] [c|]]; destruct (clear_clicked w); reflexivity.
Qed.

(** X12. A run never fails on a missing key: whatever keys the store holds
    when the script starts, lines 30-31 and 151-155 have created the absent
    ones before anything indexes them.  Keys that exist are left alone, so
    a run that starts from a complete session works on that very session,
    and the first run works on the empty one. *)
Theorem run_script_finds_its_keys :
  forall (r : Remote) (w : Widgets),
    (forall st : Store, exists run : Run, run_script r w st = Some run) /\
    (forall s : SessionState,
        init_model_history (init_chat_history (init_chat_session (store_of s))) = store_of s) /\
    session_of (init_model_history (init_chat_history (init_chat_session empty_store)))
    = Some initial_session_state.
Proof.
  intros r w. split; [|split].
  - intros st. rewrite run_script_start. eexists. reflexivity.
  - intros [t h c]. reflexivity.
  - reflexivity.
Qed.

(** X13. A run in which nothing was sent and the button was not pressed
    shows the stored transcript and leaves the session exactly as it found
    it; an empty chat input counts as nothing sent. *)
Theorem idle_run_changes_nothing :
  forall (r : Remote) (selected : Profile) (s : SessionState) (input : option string),
    input = None \/ input = Some "" ->
    run_script r (mkWidgets selected false input) (store_of s)
    = Some (mkRun (show_history (goal_label (sel_goal selected)) s) (Ok tt) (mkPage s [])) /\
    store_after (store_of s) (run_script r (mkWidgets selected false input) (store_of s))
    = store_of s.
Proof.
  intros r selected s input Hin.
  rewrite run_script_start. unfold start_session. cbn [clear_clicked profile chat_input store_of
    key_chat_history key_model_history key_chat_session].
  destruct s as [t h c]. destruct Hin as [-> | ->]; split; reflexivity.
Qed.

Lemma idle_run_witness :
  store_after (store_of (session_state ex_active_page))
    (run_script ex_remote_ok (mkWidgets ex_profile false None)
       (store_of (session_state ex_active_page)))
  = store_of (session_state ex_active_page).
Proof.
  destruct (idle_run_changes_nothing ex_remote_ok ex_profile (session_state ex_active_page) None)
    as [_ H].
  - left. reflexivity.
  - exact H.
Defined.

(** X14. The first run of a session, with nothing sent, shows the greeting
    with the selected goal and nothing else, and leaves the three keys
    created: empty transcript, empty model history, no handle. *)
Theorem first_run_greets :
  forall (r : Remote) (selected : Profile) (clicked : bool),
    run_script r (mkWidgets selected clicked None) empty_store
    = Some (mkRun [Greeting (greeting (goal_label (sel_goal selected)))]
                  (Ok tt) (mkPage initial_session_state [])) /\
    store_after empty_store (run_script r (mkWidgets selected clicked None) empty_store)
    = store_of initial_session_state.
Proof.
  intros r selected clicked. rewrite run_script_start.
  destruct clicked; split; reflexivity.
Qed.

(** X15. Both ways of resetting end in the same store.  A run in which the
    clear button was pressed and a run that follows the change of a select
    box show the greeting alone and leave an empty transcript and an empty
    model history, whatever they held, while the handle key keeps the chat
    it held. *)
Theorem clearing_and_reselecting_agree :
  forall (r : Remote) (selected : Profile) (s : SessionState),
    run_script r (mkWidgets selected true None) (store_of s)
    = Some (mkRun [Greeting (greeting (goal_label (sel_goal selected)))]
                  (Ok tt) (mkPage (mkSession [] [] (chat_session s)) [])) /\
    after_event (store_of s) (Rerun r (mkWidgets selected true None))
    = store_of (mkSession [] [] (chat_session s)) /\
    after_event (store_of s) (SelectionChanged r (mkWidgets selected false None))
    = store_of (mkSession [] [] (chat_session s)).
Proof.
  intros r selected [t h c]. unfold after_event. rewrite !run_script_start.
  repeat split.
Qed.

(** ** What the next run shows *)

Lemma show_history_app (goal : string) (s : SessionState)
  (old : list (string * string)) (entry : string * string) (more : list (string * string)) :
  chat_history s = (old ++ entry :: more)%list ->
  show_history goal s = (map bubble old ++ bubble entry :: map bubble more)%list.
Proof.
  intros H. unfold show_history. rewrite H.
  destruct (old ++ entry :: more)%list eqn:E.
  - destruct old; discriminate.
  - rewrite <- E, map_app. reflexivity.
Qed.

(** X16. After any submission, answered, refused or broken off, the next
    run shows no greeting: it shows the bubbles of the earlier entries,
    then the message as a bubble of the user, then at most one bubble of
    the assistant. *)
Theorem after_submit_history_shows_message :
  forall (r : Remote) (instruction prompt goal : string) (p : Page),
  exists answer : list Shown,
    show_history goal (session_state (snd (submit r instruction prompt p)))
    = (map (fun entry => Bubble (speaker (fst entry)) (snd entry))
           (chat_history (session_state p))
         ++ Bubble "user" prompt :: answer)%list /\
    (answer = [] \/ exists full : string, answer = [Bubble "assistant" full]).
Proof.
  intros r instruction prompt goal p.
  destruct (submit_any r instruction prompt p) as (Ht & _).
  destruct Ht as [Ht|(full & _ & Ht)].
  - exists []. split; [|left; reflexivity].
    apply (show_history_app goal _ _ ("You", prompt) [] Ht).
  - exists [Bubble "assistant" full]. split; [|right; exists full; reflexivity].
    apply (show_history_app goal _ _ ("You", prompt) [("Bot", full)] Ht).
Qed.

(** X17. What a successful submission draws is what later runs replay from
    the transcript: the run itself draws the message in a bubble of the
    user and finishes the placeholder with the whole reply, without the
    cursor; the next run shows the same two texts as the last two bubbles,
    the user's and then the assistant's. *)
Theorem reply_is_replayed_as_drawn
  (r : Remote) (instruction prompt goal : string) (p : Page)
  (response : Response) (h : History) :
  call_succeeds r instruction prompt (session_state p) response ->
  exhausted response ->
  history r (opened_chat instruction (session_state p)) = Ok h ->
  exists (frames : list Element) (reply : string),
    rendered (snd (submit r instruction prompt p))
    = (rendered p ++ ChatMessage "user" prompt :: frames ++ [Placeholder reply])%list /\
    show_history goal (session_state (snd (submit r instruction prompt p)))
    = (map (fun entry => Bubble (speaker (fst entry)) (snd entry))
           (chat_history (session_state p))
         ++ [Bubble "user" prompt; Bubble "assistant" reply])%list /\
    reply = join (fragments (chunks response)).
Proof.
  intros Hcall Hend Hh.
  exists (placeholders (chunks response) ""), (join (fragments (chunks response))).
  rewrite (submit_answered_page r instruction prompt p response Hcall Hend), Hh.
  cbn [snd rendered session_state].
  split; [rewrite app_nil_r; reflexivity|]. split; [|reflexivity].
  apply (show_history_app goal _ (chat_history (session_state p)) ("You", prompt)
           [("Bot", join (fragments (chunks response)))]).
  reflexivity.
Qed.

Lemma reply_is_replayed_witness :
  show_history "Debt Reduction"
    (session_state (snd (submit ex_remote_ok ex_instruction ex_prompt fresh_page)))
  = [Bubble "user" ex_prompt; Bubble "assistant" "Start with an index fund."].
Proof.
  destruct (reply_is_replayed_as_drawn
              ex_remote_ok ex_instruction ex_prompt "Debt Reduction" fresh_page
              (mkResponse ex_chunks None) ex_reply) as (frames & reply & _ & Hv & Hr).
  - repeat split.
  - split; reflexivity.
  - reflexivity.
  - rewrite Hv, Hr. reflexivity.
Defined.

(** ** What every reachable session satisfies *)

Lemma answers_follow_user (t : list (string * string)) (prompt : string) :
  forall b : bool,
    answers_follow b t = true -> answers_follow b (t ++ [("You", prompt)]) = true.
Proof.
  induction t as [|[who body] rest IH]; intros b H; simpl in *.
  - reflexivity.
  - destruct (String.eqb who "You"); [exact (IH _ H)|].
    destruct (String.eqb who "Bot"); [|discriminate].
    apply andb_true_iff in H. destruct H as [-> H]. exact (IH _ H).
Qed.

Lemma answers_follow_exchange (t : list (string * string)) (prompt full : string) :
  forall b : bool,
    answers_follow b t = true ->
    answers_follow b (t ++ [("You", prompt); ("Bot", full)]) = true.
Proof.
  induction t as [|[who body] rest IH]; intros b H; simpl in *.
  - reflexivity.
  - destruct (String.eqb who "You"); [exact (IH _ H)|].
    destruct (String.eqb who "Bot"); [|discriminate].
    apply andb_true_iff in H. destruct H as [-> H]. exact (IH _ H).
Qed.

Lemma submit_keeps_invariant (r : Remote) (instruction prompt : string) (p : Page) :
  session_invariant (session_state p) ->
  session_invariant (session_state (snd (submit r instruction prompt p))).
Proof.
  intros [Ht Hm].
  destruct (submit_any r instruction prompt p) as (Ht' & Hc' & Hm').
  split.
  - destruct Ht' as [-> | (full & _ & ->)].
    + apply answers_follow_user. exact Ht.
    + apply answers_follow_exchange. exact Ht.
  - intros Hne. destruct Hm' as [Hsame | (chat & h & -> & _)]; [|discriminate].
    rewrite Hsame in Hne. destruct Hc' as [-> | ->]; [exact (Hm Hne) | discriminate].
Qed.

Lemma chat_input_block_keeps_invariant
  (r : Remote) (instruction : string) (input : option string) (p : Page) :
  session_invariant (session_state p) ->
  session_invariant (session_state (snd (chat_input_block r instruction input p))).
Proof.
  intros H. unfold chat_input_block.
  destruct input as [prompt|]; [|exact H].
  destruct (truthy prompt); [apply submit_keeps_invariant; exact H | exact H].
Qed.

Lemma start_session_invariant (w : Widgets) (st : Store) :
  store_invariant st -> session_invariant (start_session w st).
Proof.
  intros [Ht Hm]. unfold start_session, session_invariant. cbn [chat_history model_history chat_session].
  destruct (clear_clicked w).
  - split; [reflexivity|]. intros H. now contradiction H.
  - split.
    + destruct (key_chat_history st) as [t|]; [exact (Ht t eq_refl) | reflexivity].
    + destruct (key_model_history st) as [h|]; [|intros H; now contradiction H].
      intros Hne. destruct (Hm h eq_refl Hne) as [chat ->]. discriminate.
Qed.

Lemma store_of_invariant (s : SessionState) :
  session_invariant s -> store_invariant (store_of s).
Proof.
  intros [Ht Hm]. split; simpl.
  - intros t [= <-]. exact Ht.
  - intros h [= <-] Hne. destruct (chat_session s) as [chat|].
    + exists chat. reflexivity.
    + now contradiction (Hm Hne).
Qed.

Lemma run_keeps_invariant (r : Remote) (w : Widgets) (st : Store) :
  store_invariant st ->
  exists s : SessionState,
    store_after st (run_script r w st) = store_of s /\ session_invariant s.
Proof.
  intros H. rewrite run_script_start. cbn [store_after final_page].
  eexists. split; [reflexivity|].
  apply chat_input_block_keeps_invariant. cbn [session_state].
  apply start_session_invariant. exact H.
Qed.

Lemma reset_history_keys_invariant (st : Store) : store_invariant (reset_history_keys st).
Proof.
  split; simpl.
  - intros t [= <-]. reflexivity.
  - intros h [= <-] Hne. now contradiction Hne.
Qed.

Lemma after_event_invariant (st : Store) (ev : Event) :
  store_invariant st ->
  exists s : SessionState, after_event st ev = store_of s /\ session_invariant s.
Proof.
  intros H. destruct ev as [r w|r w]; simpl.
  - apply run_keeps_invariant. apply reset_history_keys_invariant.
  - apply run_keeps_invariant. exact H.
Qed.

Lemma after_events_invariant (evs : list Event) :
  forall st : Store,
    store_invariant st ->
    store_invariant (fold_left after_event evs st) /\
    (evs <> [] -> exists s : SessionState, fold_left after_event evs st = store_of s).
Proof.
  induction evs as [|ev rest IH]; intros st H; simpl.
  - split; [exact H|]. intros Hne. now contradiction Hne.
  - destruct (after_event_invariant st ev H) as (s & Hs & Hinv).
    destruct (IH (after_event st ev)) as [IH1 IH2].
    { rewrite Hs. apply store_of_invariant. exact Hinv. }
    split; [exact IH1|]. intros _.
    destruct rest as [|ev' rest'].
    + exists s. exact Hs.
    + apply IH2. discriminate.
Qed.

(** X18. Whatever the user does and whatever the service answers, from the
    first run on all three keys exist, every entry of the transcript is the
    user's or the assistant's, every entry of the assistant comes directly
    after an entry of the user, and a model history that is not empty goes
    with a handle. *)
Theorem every_session_is_orderly :
  forall (ev : Event) (evs : list Event),
  exists s : SessionState,
    after_events (ev :: evs) = store_of s /\
    orderly (chat_history s) = true /\
    (model_history s <> [] -> chat_session s <> None).
Proof.
  intros ev evs.
  assert (H0 : store_invariant empty_store).
  { split; simpl; intros; discriminate. }
  destruct (after_events_invariant (ev :: evs) empty_store H0) as [Hinv Hfull].
  destruct Hfull as [s Hs]; [discriminate|].
  exists s. unfold after_events. split; [exact Hs|].
  rewrite Hs in Hinv. destruct Hinv as [Ht Hm]. split.
  - apply Ht. reflexivity.
  - intros Hne. destruct (Hm (model_history s) eq_refl Hne) as [chat Hc].
    simpl in Hc. injection Hc as ->. discriminate.
Qed.

(** X19. Nothing in the script ever clears the handle: once a chat is
    stored, every later event, a reset included, leaves some chat stored. *)
Theorem handle_is_never_cleared
  (st : Store) (ev : Event) (chat : ChatSession) :
  key_chat_session st = Some (Some chat) ->
  exists chat' : ChatSession, key_chat_session (after_event st ev) = Some (Some chat').
Proof.
  intros Hc.
  assert (Hrun : forall (r : Remote) (w : Widgets) (st0 : Store),
             key_chat_session st0 = Some (Some chat) ->
             exists chat' : ChatSession,
               key_chat_session (store_after st0 (run_script r w st0)) = Some (Some chat')).
  { intros r w st0 H0. rewrite run_script_start. cbn [store_after final_page store_of key_chat_session].
    unfold chat_input_block.
    assert (Hstart : chat_session (start_session w st0) = Some chat)
      by (unfold start_session; cbn [chat_session]; rewrite H0; reflexivity).
    destruct (chat_input w) as [prompt|]; [|exists chat; cbn [snd ret session_state]; now rewrite Hstart].
    destruct (truthy prompt); [|exists chat; cbn [snd ret session_state]; now rewrite Hstart].
    destruct (submit_any r (compile_profile (profile w)) prompt (mkPage (start_session w st0) []))
      as (_ & Hh & _).
    cbn [session_state] in Hh.
    destruct Hh as [-> | ->]; eexists; [rewrite Hstart|]; reflexivity. }
  destruct ev as [r w|r w]; simpl.
  - apply Hrun. exact Hc.
  - apply Hrun. exact Hc.
Qed.

Lemma handle_is_never_cleared_witness :
  exists chat' : ChatSession,
    key_chat_session
      (after_event (store_of (session_state ex_active_page))
         (SelectionChanged ex_remote_ok (ex_widgets None)))
    = Some (Some chat').
Proof.
  apply (handle_is_never_cleared (store_of (session_state ex_active_page))
           (SelectionChanged ex_remote_ok (ex_widgets None)) ex_old_chat).
  reflexivity.
Defined.

(** ** The prompt tells the selections apart *)

Lemma append_cancel_l (x y z : string) : x ++ y = x ++ z -> y = z.
Proof.
  induction x as [|c x IH]; simpl; intros H.
  - exact H.
  - injection H as H. exact (IH H).
Qed.

Ltac strip H := repeat (apply append_cancel_l in H).

Ltac tell_apart H :=
  first [ split; [reflexivity | strip H; exact H]
        | exfalso; simpl in H; discriminate H ].

Lemma age_group_label_inj (x y : AgeGroup) (rest rest' : string) :
  age_group_label x ++ rest = age_group_label y ++ rest' -> x = y /\ rest = rest'.
Proof. intros H. destruct x, y; tell_apart H. Qed.

Lemma income_label_inj (x y : Income) (rest rest' : string) :
  income_label x ++ rest = income_label y ++ rest' -> x = y /\ rest = rest'.
Proof. intros H. destruct x, y; tell_apart H. Qed.

Lemma interest_rate_label_inj (x y : InterestRate) (rest rest' : string) :
  interest_rate_label x ++ rest = interest_rate_label y ++ rest' -> x = y /\ rest = rest'.
Proof. intros H. destruct x, y; tell_apart H. Qed.

Lemma risk_tolerance_label_inj (x y : RiskTolerance) (rest rest' : string) :
  risk_tolerance_label x ++ rest = risk_tolerance_label y ++ rest' -> x = y /\ rest = rest'.
Proof. intros H. destruct x, y; tell_apart H. Qed.

Lemma goal_label_inj (x y : Goal) (rest rest' : string) :
  goal_label x ++ rest = goal_label y ++ rest' -> x = y /\ rest = rest'.
Proof. intros H. destruct x, y; tell_apart H. Qed.

Lemma time_horizon_label_inj (x y : TimeHorizon) (rest rest' : string) :
  time_horizon_label x ++ rest = time_horizon_label y ++ rest' -> x = y /\ rest = rest'.
Proof. intros H. destruct x, y; tell_apart H. Qed.

Lemma knowledge_label_inj (x y : Knowledge) (rest rest' : string) :
  knowledge_label x ++ rest = knowledge_label y ++ rest' -> x = y /\ rest = rest'.
Proof. intros H. destruct x, y; tell_apart H. Qed.

(** X20. Two selections that differ in any of the seven fields give
    different prompts, so a change of any select box reaches the service;
    in particular no two options of a select box carry the same label. *)
Theorem compile_profile_injective :
  forall p q : Profile, compile_profile p = compile_profile q -> p = q.
Proof.
  intros [a i d k g h n] [a' i' d' k' g' h' n'] H.
  unfold compile_profile, system_prompt in H. cbn [sel_age_group sel_income sel_interest_rate
    sel_risk_tolerance sel_goal sel_time_horizon sel_knowledge] in H.
  strip H. apply age_group_label_inj in H. destruct H as [-> H].
  strip H. apply income_label_inj in H. destruct H as [-> H].
  strip H. apply interest_rate_label_inj in H. destruct H as [-> H].
  strip H. apply risk_tolerance_label_inj in H. destruct H as [-> H].
  strip H. apply goal_label_inj in H. destruct H as [-> H].
  strip H. apply time_horizon_label_inj in H. destruct H as [-> H].
  strip H. apply knowledge_label_inj in H. destruct H as [-> _].
  reflexivity.
Qed.

Lemma compile_profile_injective_witness :
  mkProfile Age18_25 Income20k_50k RateNone Aggressive WealthBuilding LongTerm Novice = ex_profile.
Proof.
  apply compile_profile_injective. reflexivity.
Defined.

Lemma length_append (x y : string) : String.length (x ++ y) = String.length x + String.length y.
Proof. induction x as [|c x IH]; simpl; [reflexivity | now rewrite IH]. Qed.

(** X21. The f-string puts the age group, the income, the interest rate
    and the time horizon into the prompt once, and the risk tolerance, the
    goal and the knowledge level twice, around 1352 bytes of fixed text:
    the length of the prompt is that of the fixed text plus the lengths of
    the fields, the last three counted twice. *)
Theorem system_prompt_length :
  forall age_group income interest_rate risk_tolerance goal time_horizon knowledge : string,
    String.length
      (system_prompt age_group income interest_rate risk_tolerance goal time_horizon knowledge)
    = 1352 + String.length age_group + String.length income + String.length interest_rate
      + String.length time_horizon
      + 2 * (String.length risk_tolerance + String.length goal + String.length knowledge).
Proof.
  intros. unfold system_prompt. repeat rewrite length_append.
  unfold nl. simpl String.length. lia.
Qed.
